(** * Credential resolution and client bootstrap of the Azure DevOps MCP server

    A shallow embedding of [src/index.ts]: the process environment is a
    finite map, the two asynchronous functions [getAzureDevOpsToken] and
    [getAzureDevOpsClient] are computations in a small state, error and
    trace monad, and the Azure SDK objects they build are values of
    inductive types.  Everything observable from outside the process
    (diagnostic lines, environment writes, credential constructions, calls
    to the identity provider, client constructions) is recorded as an
    event, in program order. *)

From stdpp Require Import gmap strings list fin_maps.
From Stdlib Require Import ZArith Ascii String.

Open Scope string_scope.
Open Scope list_scope.

(** ** JavaScript values that occur in the program *)

(** A value read from [process.env] or from a parsed flag: a string, or
    [undefined]. *)
Abbreviation jsstring := (option string).

(** JavaScript truthiness on such a value: [undefined] and the empty
    string are falsy. *)
Definition truthy (v : jsstring) : bool :=
  match v with
  | Some s => negb (String.eqb s "")
  | None => false
  end.

(** [a || b]. *)
Definition js_or (a b : jsstring) : jsstring :=
  if truthy a then a else b.

Infix "||j" := js_or (at level 50, left associativity).

(** [(a || "")], whose result is always a string. *)
Definition js_or_empty (a : jsstring) : string :=
  match a ||j Some "" with
  | Some s => s
  | None => ""
  end.

(** [String.prototype.toLowerCase] on the characters that matter for the
    comparison with ["obo"]: the letters A-Z are mapped to a-z and every
    other code unit is kept.  No letter outside ASCII has [o] or [b] as
    its lower case, so that the comparison comes out as in JavaScript;
    where the lower-case string itself is printed, [js_lower] below is
    used. *)
Definition lower_ascii (c : ascii) : ascii :=
  let n := nat_of_ascii c in
  if (Nat.leb 65 n && Nat.leb n 90)%bool then ascii_of_nat (n + 32) else c.

Fixpoint toLowerCase (s : string) : string :=
  match s with
  | EmptyString => EmptyString
  | String c s' => String (lower_ascii c) (toLowerCase s')
  end.

(** The values that appear in the object literals passed to
    [console.error].  [JLowerCase s] stands for the lower-case form of a
    string [s] that has characters outside ASCII, which is not computed
    here. *)
Inductive JsVal :=
| JUndefined
| JString (s : string)
| JNumber (n : Z)
| JBool (b : bool)
| JLowerCase (s : string).

Definition js_of_string (v : jsstring) : JsVal :=
  match v with
  | Some s => JString s
  | None => JUndefined
  end.

Definition ascii_only (s : string) : bool :=
  forallb (λ c, Nat.ltb (nat_of_ascii c) 128) (list_ascii_of_string s).

(** [s.toLowerCase()] as a value to be printed: computed by
    [toLowerCase] when [s] is ASCII, where the two agree. *)
Definition js_lower (s : string) : JsVal :=
  if ascii_only s then JString (toLowerCase s) else JLowerCase s.

(** ** The SDK objects *)

(** [AccessToken] of [@azure/identity]. *)
Record AccessToken := {
  token : string;
  expiresOnTimestamp : Z;
}.

(** The credential classes the program instantiates. *)
#[warnings="-register-all"] Inductive Credential :=
| OnBehalfOfCredential (tenantId clientId clientSecret userAssertionToken : string)
| DefaultAzureCredential
| AzureCliCredential (tenantId : string)
| ChainedTokenCredential (sources : list Credential).

(** An error value: the [throw new Error(...)] sites of the program, and
    whatever the SDK itself throws. *)
Inductive Error :=
| ErrNoUserAssertion
| ErrOboSettings
| ErrOboNoToken
| ErrNoToken
| ErrNoOrganization
| ErrSdk (what : string).

Definition message (e : Error) : string :=
  match e with
  | ErrNoUserAssertion =>
      "ADO_AUTH=obo is set but MCP_USER_ASSERTION was not provided."
  | ErrOboSettings =>
      "ADO_AUTH=obo requires AZURE_(AD_)TENANT_ID, AZURE_(AD_)CLIENT_ID and AZURE_(AD_)CLIENT_SECRET to be set."
  | ErrOboNoToken =>
      "On-behalf-of flow failed to acquire Azure DevOps token."
  | ErrNoToken =>
      "Failed to obtain Azure DevOps token. Ensure you have Azure CLI logged in or another token source setup correctly."
  | ErrNoOrganization =>
      "Azure DevOps organization is required. Provide as positional arg or set ADO_ORG env var."
  | ErrSdk what => what
  end.

(** The error taxonomy of the design: a required setting is absent, the
    identity provider returned nothing, or a failure of the SDK that the
    program lets through. *)
Inductive ErrorKind := ConfigurationError | AuthenticationError | TransportError.

Definition kind (e : Error) : ErrorKind :=
  match e with
  | ErrNoUserAssertion | ErrOboSettings | ErrNoOrganization => ConfigurationError
  | ErrOboNoToken | ErrNoToken => AuthenticationError
  | ErrSdk _ => TransportError
  end.

(** How a [WebApi] connection was built. *)
Inductive Construction := CreateWithBearerToken | BearerHandler.

(** The request settings of a [WebApi], the fourth parameter of its
    constructor. *)
Record RequestSettings := {
  productName : string;
  productVersion : string;
  userAgent : string;
}.

(** The [azdev.WebApi] object, as far as the program determines it: how
    it was built, for which URL, around which bearer token, and the
    request settings that its constructor received, if any. *)
Record WebApi := {
  via : Construction;
  serverUrl : string;
  bearer : string;
  requestSettings : option RequestSettings;
}.

(** ** Observable events *)

(** [EvNew c] is the call of the constructor of [c], which may return the
    object or throw; [EvGetToken c scope] is a call of [getToken] on a
    credential that is not a chain. *)
Inductive Event :=
| EvLog (line : string) (fields : list (string * JsVal))
| EvSetEnv (name value : string)
| EvNew (c : Credential)
| EvGetToken (c : Credential) (scope : string)
| EvWebApi (conn : WebApi).

(** ** The monad of the asynchronous functions *)

Inductive Outcome (A : Type) :=
| Ret (a : A)
| Throw (e : Error).
Arguments Ret {A} a.
Arguments Throw {A} e.

(** A computation reads and writes [process.env], may throw, and leaves a
    trace. *)
Definition M (A : Type) : Type :=
  gmap string string → Outcome A * gmap string string * list Event.

Definition ret {A} (a : A) : M A := λ env, (Ret a, env, []).

Definition bind {A B} (m : M A) (f : A → M B) : M B :=
  λ env,
    match m env with
    | (Ret a, env1, t1) =>
        match f a env1 with
        | (r, env2, t2) => (r, env2, t1 ++ t2)
        end
    | (Throw e, env1, t1) => (Throw e, env1, t1)
    end.

Definition throw {A} (e : Error) : M A := λ env, (Throw e, env, []).

Definition emit (ev : Event) : M unit := λ env, (Ret tt, env, [ev]).

Definition setenv (name value : string) : M unit :=
  λ env, (Ret tt, <[name := value]> env, [EvSetEnv name value]).

#[export] Instance M_ret : MRet M := @ret.
#[export] Instance M_bind : MBind M := λ A B f m, bind m f.

Definition outcome {A} (r : Outcome A * gmap string string * list Event) : Outcome A := r.1.1.
Definition env_after {A} (r : Outcome A * gmap string string * list Event) : gmap string string := r.1.2.
Definition trace {A} (r : Outcome A * gmap string string * list Event) : list Event := r.2.

(** [process.env], read as a whole. *)
Definition process_env : M (gmap string string) := λ env, (Ret env, env, []).

(** [try { ... } catch], reifying the outcome. *)
Definition attempt {A} (m : M A) : M (Outcome A) :=
  λ env, match m env with (r, env1, t1) => (Ret r, env1, t1) end.

(** The string behind a value that a preceding guard has shown truthy. *)
Definition str (v : jsstring) : string := default "" v.

(** ** What the program is given *)

(** The answer of the identity provider to one [getToken] call. *)
Inductive Reply :=
| Issued (t : AccessToken)
| Nothing
| Rejected (what : string).

(** The parts of the SDKs and of the sibling modules that the functions
    below depend on.  The constructors of the credential classes validate
    their arguments and their configuration, and throw when these are not
    acceptable: [construct env c] is [None] when the constructor of [c]
    returns in the environment [env], and the error otherwise.  The
    identity provider stands behind [getToken]; what it answers may
    depend on the environment too, from which the ambient credentials
    draw.  The rest is whether [azdev.WebApi] has a static
    [createWithBearerToken], and [packageVersion] of [./version.js]. *)
Record Sdk := {
  construct : gmap string string → Credential → option string;
  identityProvider : gmap string string → Credential → string → Reply;
  hasCreateWithBearerToken : bool;
  packageVersion : string;
}.

(** [UserAgentComposer] of [./useragent.js]: only its [userAgent] getter
    is used here, and the string it returns is taken as given. *)
Record UserAgentComposer := { composedUserAgent : string }.

(** The arguments parsed by yargs.  The positional [organization] is
    required: without it yargs ends the process before line 37 is
    reached, so that it is a string here, possibly the empty one. *)
Record Argv := {
  organization : string;
  tenant : jsstring;
}.

(** The module-level constants, computed once when the module is loaded. *)
Record Process := {
  orgName : jsstring;
  tenantId : jsstring;
}.

Definition startup (argv : Argv) (env : gmap string string) : Outcome Process :=
  let orgName := Some (organization argv) ||j env !! "ADO_ORG" in
  let tenantId := tenant argv ||j env !! "AZURE_AD_TENANT_ID" in
  if negb (truthy orgName) then Throw ErrNoOrganization
  else Ret {| orgName := orgName; tenantId := tenantId |}.

Definition orgUrl (p : Process) : string := "https://dev.azure.com/" +:+ str (orgName p).

(** ** Asking a credential for a token *)

(** Modelled from the spec: [ChainedTokenCredential.getToken] is code of
    [@azure/identity]; the chain tries its entries strictly in order,
    returns the first token obtained and surfaces the last error if all
    fail. *)
Definition chain_getToken (get : Credential → M (option AccessToken)) :
    list Credential → option Error → M (option AccessToken) :=
  fix go sources last :=
    match sources with
    | [] =>
        match last with
        | Some e => throw e
        | None => mret None
        end
    | c :: rest =>
        r ← attempt (get c);
        match r with
        | Ret (Some t) => mret (Some t)
        | Ret None => go rest last
        | Throw e => go rest (Some e)
        end
    end.

Section Program.

Variable sdk : Sdk.
Variable proc : Process.

(** [new C(...)]: the constructor is called and returns, or throws. *)
Definition new (c : Credential) : M unit :=
  emit (EvNew c);;
  env ← process_env;
  match construct sdk env c with
  | None => mret tt
  | Some what => throw (ErrSdk what)
  end.

(** [credential.getToken(scope)]: a chain delegates to its sources; any
    other credential makes one call to the identity provider. *)
Fixpoint getToken (c : Credential) (scope : string) : M (option AccessToken) :=
  match c with
  | ChainedTokenCredential sources =>
      chain_getToken (λ c', getToken c' scope) sources None
  | _ =>
      emit (EvGetToken c scope);;
      env ← process_env;
      match identityProvider sdk env c scope with
      | Issued t => mret (Some t)
      | Nothing => mret None
      | Rejected what => throw (ErrSdk what)
      end
  end.

Definition expiresOn (tok : option AccessToken) : JsVal :=
  match tok with
  | Some t => JNumber (expiresOnTimestamp t)
  | None => JUndefined
  end.

Definition getAzureDevOpsToken : M AccessToken :=
  let scope := "499b84ac-1321-427f-aa17-267ca6975798/.default" in
  env ← process_env;
  let authMode := toLowerCase (js_or_empty (env !! "ADO_AUTH")) in
  if String.eqb authMode "obo" then
    let userAssertion := env !! "MCP_USER_ASSERTION" ||j env !! "ADO_USER_ASSERTION" in
    let envTenant := env !! "AZURE_AD_TENANT_ID" ||j env !! "AZURE_TENANT_ID" ||j tenantId proc in
    let clientId := env !! "AZURE_AD_CLIENT_ID" ||j env !! "AZURE_CLIENT_ID" in
    let clientSecret := env !! "AZURE_AD_CLIENT_SECRET" ||j env !! "AZURE_CLIENT_SECRET" in
    emit (EvLog "[ADO][OBO] Starting OBO token acquisition"
            [("hasUserAssertion", js_of_string userAssertion);
             ("hasTenant", js_of_string envTenant);
             ("hasClientId", js_of_string clientId);
             ("hasClientSecret", js_of_string clientSecret);
             ("orgUrl", JString (orgUrl proc))]);;
    if negb (truthy userAssertion) then throw ErrNoUserAssertion else
    if negb (truthy envTenant) || negb (truthy clientId) || negb (truthy clientSecret)
    then throw ErrOboSettings else
    let obo := OnBehalfOfCredential (str envTenant) (str clientId) (str clientSecret)
                 (str userAssertion) in
    new obo;;
    tok ← getToken obo scope;
    emit (EvLog "[ADO][OBO] Token acquired" [("expiresOn", expiresOn tok)]);;
    match tok with
    | None => throw ErrOboNoToken
    | Some t => mret t
    end
  else
    (if truthy (env !! "ADO_MCP_AZURE_TOKEN_CREDENTIALS")
     then setenv "AZURE_TOKEN_CREDENTIALS" (str (env !! "ADO_MCP_AZURE_TOKEN_CREDENTIALS"))
     else setenv "AZURE_TOKEN_CREDENTIALS" "dev");;
    let credential := DefaultAzureCredential in
    new credential;;
    credential ←
      (if truthy (tenantId proc) then
         let azureCliCredential := AzureCliCredential (str (tenantId proc)) in
         new azureCliCredential;;
         let chained := ChainedTokenCredential [azureCliCredential; credential] in
         new chained;;
         mret chained
       else mret credential);
    tok ← getToken credential scope;
    match tok with
    | None => throw ErrNoToken
    | Some t => mret t
    end.

(** The two constructions of lines 105 and 112.  The static
    [createWithBearerToken] of [azdev.WebApi] has the parameters
    [(defaultUrl, token, options)]: the call of line 105 gives it
    [undefined] for [options] and the settings as a fourth argument, which
    is not a parameter, so that the client it returns has received no
    request settings.  The constructor [new azdev.WebApi] has the
    parameters [(defaultUrl, authHandler, options, requestSettings)]. *)
Definition getAzureDevOpsClient (userAgentComposer : UserAgentComposer) : M WebApi :=
  tok ← getAzureDevOpsToken;
  env ← process_env;
  let raw := js_or_empty (env !! "ADO_AUTH") in
  let authMode := toLowerCase raw in
  let settings :=
    {| productName := "AzureDevOps.MCP";
       productVersion := packageVersion sdk;
       userAgent := composedUserAgent userAgentComposer |} in
  let connection :=
    if String.eqb authMode "obo" && hasCreateWithBearerToken sdk then
      {| via := CreateWithBearerToken;
         serverUrl := orgUrl proc;
         bearer := token tok;
         requestSettings := None |}
    else
      {| via := BearerHandler;
         serverUrl := orgUrl proc;
         bearer := token tok;
         requestSettings := Some settings |} in
  emit (EvWebApi connection);;
  emit (EvLog "[ADO] WebApi client initialized"
          [("orgUrl", JString (orgUrl proc)); ("authMode", js_lower raw)]);;
  mret connection.

End Program.

(** ** Observers on environments and traces *)

(** The comparison of lines 46-49 and 102-104, on a given environment. *)
Definition isObo (env : gmap string string) : bool :=
  String.eqb (toLowerCase (js_or_empty (env !! "ADO_AUTH"))) "obo".

Definition scope : string := "499b84ac-1321-427f-aa17-267ca6975798/.default".

(** The credentials asked for a token, in the order they were asked. *)
Fixpoint contacts (tr : list Event) : list Credential :=
  match tr with
  | [] => []
  | EvGetToken c _ :: tr' => c :: contacts tr'
  | _ :: tr' => contacts tr'
  end.

(** The credential objects constructed, in the order of construction. *)
Fixpoint constructed (tr : list Event) : list Credential :=
  match tr with
  | [] => []
  | EvNew c :: tr' => c :: constructed tr'
  | _ :: tr' => constructed tr'
  end.

(** The client handles constructed. *)
Fixpoint webapis (tr : list Event) : list WebApi :=
  match tr with
  | [] => []
  | EvWebApi h :: tr' => h :: webapis tr'
  | _ :: tr' => webapis tr'
  end.

(** The assignments to [process.env]. *)
Fixpoint assignments (tr : list Event) : list (string * string) :=
  match tr with
  | [] => []
  | EvSetEnv k v :: tr' => (k, v) :: assignments tr'
  | _ :: tr' => assignments tr'
  end.

(** The credential of the delegated flow, as opposed to the ambient
    ones. *)
Definition is_obo_credential (c : Credential) : bool :=
  match c with
  | OnBehalfOfCredential _ _ _ _ => true
  | _ => false
  end.

(** Events that belong to the delegated path: its two diagnostic lines,
    and the construction and use of an on-behalf-of credential. *)
Definition obo_event (ev : Event) : bool :=
  match ev with
  | EvLog line _ => String.prefix "[ADO][OBO]" line
  | EvNew c | EvGetToken c _ => is_obo_credential c
  | _ => false
  end.

(** Events that belong to the default path: the assignment of the chain
    selector, and the construction and use of an ambient credential. *)
Definition ambient_event (ev : Event) : bool :=
  match ev with
  | EvSetEnv _ _ => true
  | EvNew c | EvGetToken c _ => negb (is_obo_credential c)
  | _ => false
  end.

(** Whether a run went down the delegated path. *)
Definition takes_obo_path (tr : list Event) : bool := existsb obo_event tr.

(** The value the chain selector [AZURE_TOKEN_CREDENTIALS] is to receive
    (lines 80-84). *)
Definition selector_value (env : gmap string string) : string :=
  if truthy (env !! "ADO_MCP_AZURE_TOKEN_CREDENTIALS")
  then str (env !! "ADO_MCP_AZURE_TOKEN_CREDENTIALS")
  else "dev".

(** The first event of the trace that is an assignment or a construction
    is the assignment of [value] to the chain selector. *)
Fixpoint selector_set_first (value : string) (tr : list Event) : bool :=
  match tr with
  | [] => false
  | EvSetEnv k v :: _ => String.eqb k "AZURE_TOKEN_CREDENTIALS" && String.eqb v value
  | EvNew _ :: _ => false
  | _ :: tr' => selector_set_first value tr'
  end.

(** The four settings of the delegated path, as lines 50-53 compute
    them. *)
Definition userAssertionOf (env : gmap string string) : jsstring :=
  env !! "MCP_USER_ASSERTION" ||j env !! "ADO_USER_ASSERTION".

Definition envTenantOf (proc : Process) (env : gmap string string) : jsstring :=
  env !! "AZURE_AD_TENANT_ID" ||j env !! "AZURE_TENANT_ID" ||j tenantId proc.

Definition clientIdOf (env : gmap string string) : jsstring :=
  env !! "AZURE_AD_CLIENT_ID" ||j env !! "AZURE_CLIENT_ID".

Definition clientSecretOf (env : gmap string string) : jsstring :=
  env !! "AZURE_AD_CLIENT_SECRET" ||j env !! "AZURE_CLIENT_SECRET".

(** The rule of the data model for such a setting, in its own words: two
    names, a primary and a fallback, and the first non-empty value wins. *)
Definition nonEmpty (v : jsstring) : jsstring :=
  match v with
  | Some s => if String.eqb s "" then None else Some s
  | None => None
  end.

Definition firstNonEmpty (primary fallback : jsstring) : jsstring :=
  match nonEmpty primary with
  | Some s => Some s
  | None => nonEmpty fallback
  end.

(** The spellings of the mode flag that select the delegated path. *)
Definition obo_spellings : list string :=
  ["obo"; "obO"; "oBo"; "oBO"; "Obo"; "ObO"; "OBo"; "OBO"].

(** Two token resolutions of one process, between which some other code
    of the process assigns [process.env[name] = value]. *)
Definition resolve_twice (sdk : Sdk) (proc : Process) (name value : string) :
    M (Outcome AccessToken * Outcome AccessToken) :=
  r1 ← attempt (getAzureDevOpsToken sdk proc);
  setenv name value;;
  r2 ← attempt (getAzureDevOpsToken sdk proc);
  mret (r1, r2).

(** The chain selector is forced, to the override or to ["dev"], before
    any credential object is constructed. *)
Definition selector_forced (sdk : Sdk) (proc : Process) (env : gmap string string) : Prop :=
  let r := getAzureDevOpsToken sdk proc env in
  selector_set_first (selector_value env) (trace r) = true ∧
  env_after r !! "AZURE_TOKEN_CREDENTIALS" = Some (selector_value env).

(** A field of a diagnostic record is a presence flag. *)
Definition presence_flag (v : JsVal) : bool :=
  match v with
  | JBool _ => true
  | _ => false
  end.

(** The value of a field of a diagnostic record. *)
Fixpoint field (name : string) (fields : list (string * JsVal)) : option JsVal :=
  match fields with
  | [] => None
  | (k, v) :: rest => if String.eqb k name then Some v else field name rest
  end.

(** A credential that is not a chain. *)
Definition is_leaf (c : Credential) : bool :=
  match c with
  | ChainedTokenCredential _ => false
  | _ => true
  end.

(** The sources of a chain up to and including the first one to which the
    identity provider issues a token. *)
Fixpoint until_issued (sdk : Sdk) (env : gmap string string) (scope : string)
    (sources : list Credential) : list Credential :=
  match sources with
  | [] => []
  | c :: rest =>
      match identityProvider sdk env c scope with
      | Issued _ => [c]
      | _ => c :: until_issued sdk env scope rest
      end
  end.

(** The environment that the SDK finds when the credentials of a
    resolution are constructed and asked: on the default path the chain
    selector has been assigned by then. *)
Definition sdk_env (env : gmap string string) : gmap string string :=
  if isObo env then env
  else <["AZURE_TOKEN_CREDENTIALS" := selector_value env]> env.

(** ** Sample worlds *)

Definition sample_token : AccessToken :=
  {| token := "eyJ0eXAi.ado"; expiresOnTimestamp := 1793664000000 |}.

(** An identity provider that issues [sample_token] to every credential. *)
Definition sdk_issuing : Sdk :=
  {| construct := λ _ _, None;
     identityProvider := λ _ _ _, Issued sample_token;
     hasCreateWithBearerToken := true;
     packageVersion := "1.2.3" |}.

(** An identity provider that returns no token at all. *)
Definition sdk_silent : Sdk :=
  {| construct := λ _ _, None;
     identityProvider := λ _ _ _, Nothing;
     hasCreateWithBearerToken := true;
     packageVersion := "1.2.3" |}.

(** An identity provider whose token object carries an empty string. *)
Definition sdk_blank : Sdk :=
  {| construct := λ _ _, None;
     identityProvider := λ _ _ _, Issued {| token := ""; expiresOnTimestamp := 0 |};
     hasCreateWithBearerToken := true;
     packageVersion := "1.2.3" |}.

(** An identity provider that has no CLI session but answers the ambient
    credential. *)
Definition sdk_no_cli : Sdk :=
  {| construct := λ _ _, None;
     identityProvider := λ _ c _,
       match c with
       | AzureCliCredential _ => Rejected "Please run 'az login' to set up an account"
       | _ => Issued sample_token
       end;
     hasCreateWithBearerToken := false;
     packageVersion := "1.2.3" |}.

(** [mcp-server-azuredevops contoso]. *)
Definition proc_contoso : Process :=
  {| orgName := Some "contoso"; tenantId := None |}.

(** [mcp-server-azuredevops contoso --tenant 72f988bf]. *)
Definition proc_tenant : Process :=
  {| orgName := Some "contoso"; tenantId := Some "72f988bf" |}.

Definition ua_sample : UserAgentComposer :=
  {| composedUserAgent := "AzureDevOps.MCP/1.2.3 myclient/0.1" |}.

(** A complete environment of the delegated mode. *)
Definition env_obo : gmap string string :=
  {[ "ADO_AUTH" := "OBO";
     "MCP_USER_ASSERTION" := "eyJ.user.assertion";
     "AZURE_TENANT_ID" := "72f988bf";
     "AZURE_AD_CLIENT_ID" := "11111111-aaaa";
     "AZURE_CLIENT_SECRET" := "s3cr3t~value" ]}.

(** The delegated mode without the tenant variables. *)
Definition env_obo_no_tenant : gmap string string :=
  {[ "ADO_AUTH" := "obo";
     "MCP_USER_ASSERTION" := "eyJ.user.assertion";
     "AZURE_AD_CLIENT_ID" := "11111111-aaaa";
     "AZURE_AD_CLIENT_SECRET" := "s3cr3t~value" ]}.

(** The delegated mode without a client secret. *)
Definition env_obo_no_secret : gmap string string :=
  {[ "ADO_AUTH" := "obo";
     "MCP_USER_ASSERTION" := "eyJ.user.assertion";
     "AZURE_TENANT_ID" := "72f988bf";
     "AZURE_CLIENT_ID" := "11111111-aaaa" ]}.

(** The default mode with an explicit chain selector. *)
Definition env_prod : gmap string string :=
  {[ "ADO_AUTH" := "cli"; "ADO_MCP_AZURE_TOKEN_CREDENTIALS" := "prod" ]}.

(** The settings of the delegated mode with the mode flag not set. *)
Definition env_flag_unset : gmap string string :=
  {[ "MCP_USER_ASSERTION" := "eyJ.user.assertion";
     "AZURE_TENANT_ID" := "72f988bf";
     "AZURE_AD_CLIENT_ID" := "11111111-aaaa";
     "AZURE_CLIENT_SECRET" := "s3cr3t~value" ]}.

(** ** Further observers and sample worlds *)

(** The scopes for which a token was asked, in order. *)
Fixpoint scopes (tr : list Event) : list string :=
  match tr with
  | [] => []
  | EvGetToken _ sc :: tr' => sc :: scopes tr'
  | _ :: tr' => scopes tr'
  end.

(** The diagnostic lines written, in order. *)
Fixpoint lines (tr : list Event) : list string :=
  match tr with
  | [] => []
  | EvLog line _ :: tr' => line :: lines tr'
  | _ :: tr' => lines tr'
  end.

(** The same SDK with another answer to the feature test of line 104. *)
Definition with_surface (b : bool) (sdk : Sdk) : Sdk :=
  {| construct := construct sdk;
     identityProvider := identityProvider sdk;
     hasCreateWithBearerToken := b;
     packageVersion := packageVersion sdk |}.

(** Two environments that agree on every variable, a variable set to the
    empty string counting as one that is not set. *)
Definition same_up_to_empty (env env' : gmap string string) : Prop :=
  ∀ name, nonEmpty (env !! name) = nonEmpty (env' !! name).

(** An SDK that does not tell a variable set to the empty string from one
    that is not set. *)
Definition blind_to_empty (sdk : Sdk) : Prop :=
  ∀ env env' c,
    same_up_to_empty env env' →
    construct sdk env c = construct sdk env' c ∧
    ∀ scope, identityProvider sdk env c scope = identityProvider sdk env' c scope.

(** An identity provider that refuses every request. *)
Definition sdk_rejecting : Sdk :=
  {| construct := λ _ _, None;
     identityProvider := λ _ _ _, Rejected "AADSTS50013: Assertion failed signature validation";
     hasCreateWithBearerToken := true;
     packageVersion := "1.2.3" |}.

(** The default mode with the override and the mode flag set, but empty. *)
Definition env_blank : gmap string string :=
  {[ "ADO_AUTH" := ""; "ADO_MCP_AZURE_TOKEN_CREDENTIALS" := "" ]}.

(** An SDK whose constructors validate what they are given: the default
    credential accepts the chain selectors [dev] and [prod] only, and a
    tenant id has to be free of blanks. *)
Definition valid_tenant (t : string) : bool :=
  forallb (λ c, negb (Ascii.eqb c " "%char)) (list_ascii_of_string t).

Definition sdk_strict : Sdk :=
  {| construct := λ env c,
       match c with
       | DefaultAzureCredential =>
           match env !! "AZURE_TOKEN_CREDENTIALS" with
           | Some v =>
               if String.eqb v "dev" || String.eqb v "prod" then None
               else Some "Invalid value for AZURE_TOKEN_CREDENTIALS"
           | None => None
           end
       | AzureCliCredential t | OnBehalfOfCredential t _ _ _ =>
           if valid_tenant t then None else Some "Invalid tenant id provided"
       | ChainedTokenCredential _ => None
       end;
     identityProvider := λ _ _ _, Issued sample_token;
     hasCreateWithBearerToken := true;
     packageVersion := "1.2.3" |}.

(** The default mode with a chain selector that the SDK does not know. *)
Definition env_bogus : gmap string string :=
  {[ "ADO_MCP_AZURE_TOKEN_CREDENTIALS" := "bogus" ]}.

(** The delegated mode with a tenant id that the SDK does not accept. *)
Definition env_obo_bad_tenant : gmap string string :=
  {[ "ADO_AUTH" := "obo";
     "MCP_USER_ASSERTION" := "eyJ.user.assertion";
     "AZURE_TENANT_ID" := "bad tenant!";
     "AZURE_AD_CLIENT_ID" := "11111111-aaaa";
     "AZURE_AD_CLIENT_SECRET" := "s3cr3t~value" ]}.

(** ** Proof automation *)

Ltac unfold_program :=
  unfold getAzureDevOpsClient, getAzureDevOpsToken, new, getToken, chain_getToken,
    attempt, setenv, emit, throw, process_env, mbind, M_bind, bind, mret,
    M_ret, ret, outcome, trace, env_after in *.

Ltac crunch :=
  repeat (first
    [ progress cbn -[lookup insert toLowerCase String.eqb truthy js_or str orgUrl] in *
    | progress simplify_eq
    | case_match ]).

(** ** JavaScript operators *)

Lemma js_or_truthy a b : truthy a = true → a ||j b = a.
Proof. unfold js_or. by intros ->. Qed.

Lemma js_or_falsy a b : truthy a = false → a ||j b = b.
Proof. unfold js_or. by intros ->. Qed.

Lemma truthy_js_or a b : truthy (a ||j b) = truthy a || truthy b.
Proof. unfold js_or. destruct (truthy a) eqn:E; [by rewrite E | done]. Qed.

Lemma truthy_Some v : truthy v = true → v = Some (str v) ∧ str v ≠ "".
Proof.
  destruct v as [s|]; [|done]. cbn. split; [done|].
  intros ->. discriminate.
Qed.

Lemma nonEmpty_truthy v : truthy v = true → nonEmpty v = v.
Proof.
  destruct v as [s|]; [|done]. cbn. by destruct (String.eqb s "").
Qed.

Lemma nonEmpty_falsy v : truthy v = false → nonEmpty v = None.
Proof.
  destruct v as [s|]; [|done]. cbn. by destruct (String.eqb s "").
Qed.

(** [||] computes the first non-empty of its operands, up to the falsy
    value it returns when both are empty. *)
Lemma js_or_firstNonEmpty a b : nonEmpty (a ||j b) = firstNonEmpty a b.
Proof.
  unfold firstNonEmpty. destruct (truthy a) eqn:E.
  - rewrite js_or_truthy, nonEmpty_truthy by done.
    by destruct (truthy_Some a E) as [-> _].
  - by rewrite js_or_falsy, (nonEmpty_falsy a).
Qed.

Lemma nonEmpty_firstNonEmpty a b : nonEmpty (firstNonEmpty a b) = firstNonEmpty a b.
Proof.
  unfold firstNonEmpty.
  destruct a as [s|]; cbn; [destruct (String.eqb s "") eqn:E; cbn; [|by rewrite E]|];
    destruct b as [s'|]; cbn; try done; destruct (String.eqb s' "") eqn:E'; cbn;
    by rewrite ?E'.
Qed.

Lemma nonEmpty_str v : truthy v = true → nonEmpty v = Some (str v).
Proof.
  intros H. rewrite nonEmpty_truthy by done. by destruct (truthy_Some v H) as [<- _].
Qed.

Lemma lower_ascii_o c : lower_ascii c = "o"%char → c = "o"%char ∨ c = "O"%char.
Proof.
  destruct c as [[] [] [] [] [] [] [] []]; vm_compute; intros H;
    first [discriminate H | by left | by right].
Qed.

Lemma lower_ascii_b c : lower_ascii c = "b"%char → c = "b"%char ∨ c = "B"%char.
Proof.
  destruct c as [[] [] [] [] [] [] [] []]; vm_compute; intros H;
    first [discriminate H | by left | by right].
Qed.

(** The strings whose lower-case form is ["obo"]. *)
Lemma toLowerCase_obo v : toLowerCase v = "obo" ↔ v ∈ obo_spellings.
Proof.
  split.
  - destruct v as [|c1 [|c2 [|c3 [|c4 v]]]]; try discriminate.
    cbn. intros [= H1 H2 H3].
    apply lower_ascii_o in H1, H3. apply lower_ascii_b in H2.
    destruct H1 as [-> | ->], H2 as [-> | ->], H3 as [-> | ->];
      apply list_elem_of_In; cbn; auto 10.
  - unfold obo_spellings. rewrite !elem_of_cons, elem_of_nil.
    intros H; repeat destruct H as [->|H]; done.
Qed.

(** [(v || "")] is [v] itself when [v] is a string, and [""] when it is
    [undefined]. *)
Lemma js_or_empty_Some v : js_or_empty (Some v) = v.
Proof.
  unfold js_or_empty, js_or, truthy.
  by destruct (String.eqb_spec v "") as [-> |].
Qed.

Lemma isObo_spelling env :
  isObo env = true ↔ ∃ v, env !! "ADO_AUTH" = Some v ∧ v ∈ obo_spellings.
Proof.
  unfold isObo. rewrite String.eqb_eq. split.
  - intros H. destruct (env !! "ADO_AUTH") as [v|] eqn:E; [|discriminate H].
    exists v. split; [done|]. apply toLowerCase_obo.
    by rewrite js_or_empty_Some in H.
  - intros (v & -> & H). apply toLowerCase_obo in H.
    by rewrite js_or_empty_Some.
Qed.

(** ** Traces *)

Lemma trace_run {A} (o : Outcome A) env t : trace (o, env, t) = t.
Proof. done. Qed.

Lemma outcome_run {A} (o : Outcome A) env t : outcome (o, env, t) = o.
Proof. done. Qed.

Lemma contacts_app t1 t2 : contacts (t1 ++ t2) = contacts t1 ++ contacts t2.
Proof. induction t1 as [|[] t1 IH]; cbn; by rewrite ?IH. Qed.

Lemma constructed_app t1 t2 : constructed (t1 ++ t2) = constructed t1 ++ constructed t2.
Proof. induction t1 as [|[] t1 IH]; cbn; by rewrite ?IH. Qed.

Lemma webapis_app t1 t2 : webapis (t1 ++ t2) = webapis t1 ++ webapis t2.
Proof. induction t1 as [|[] t1 IH]; cbn; by rewrite ?IH. Qed.

Lemma obo_ambient_disjoint ev : obo_event ev && ambient_event ev = false.
Proof. by destruct ev as [| |[]|[]|]; cbn; rewrite ?andb_false_r. Qed.

Lemma obo_events_credentials tr :
  forallb obo_event tr = true →
  forallb is_obo_credential (constructed tr ++ contacts tr) = true.
Proof.
  rewrite forallb_app. induction tr as [|ev tr IH]; [done|]. cbn.
  intros [Hev Htr]%andb_true_iff. apply IH, andb_true_iff in Htr as [H1 H2].
  destruct ev; cbn in *; rewrite ?Hev, ?H1, ?H2; done.
Qed.

Lemma ambient_events_credentials tr :
  forallb ambient_event tr = true →
  existsb is_obo_credential (constructed tr ++ contacts tr) = false.
Proof.
  rewrite existsb_app. induction tr as [|ev tr IH]; [done|]. cbn.
  intros [Hev Htr]%andb_true_iff. apply IH, orb_false_iff in Htr as [H1 H2].
  destruct ev; cbn in *; rewrite ?H1, ?H2; try done.
  all: apply negb_true_iff in Hev; by rewrite Hev.
Qed.

Lemma forallb_obo_not_ambient tr :
  forallb obo_event tr = true → existsb ambient_event tr = false.
Proof.
  induction tr as [|ev tr IH]; [done|]. cbn.
  intros [Hev Htr]%andb_true_iff. rewrite (IH Htr), orb_false_r.
  pose proof (obo_ambient_disjoint ev) as H. by rewrite Hev in H.
Qed.

Lemma forallb_ambient_not_obo tr :
  forallb ambient_event tr = true → takes_obo_path tr = false.
Proof.
  unfold takes_obo_path. induction tr as [|ev tr IH]; [done|]. cbn.
  intros [Hev Htr]%andb_true_iff. rewrite (IH Htr), orb_false_r.
  pose proof (obo_ambient_disjoint ev) as H. rewrite Hev, andb_true_r in H. done.
Qed.

(** ** Asking credentials *)

Section Credentials.

Variable sdk : Sdk.
Variable sc : string.

(** A credential that is not a chain makes exactly one call, and its
    outcome is the provider's reply. *)
Lemma getToken_leaf c env :
  is_leaf c = true →
  getToken sdk c sc env =
    (match identityProvider sdk env c sc with
     | Issued t => Ret (Some t)
     | Nothing => Ret None
     | Rejected what => Throw (ErrSdk what)
     end, env, [EvGetToken c sc]).
Proof.
  intros Hc. destruct c; try discriminate Hc; unfold_program; cbn;
    by destruct (identityProvider sdk env _ sc).
Qed.

Lemma getToken_chain sources env :
  getToken sdk (ChainedTokenCredential sources) sc env =
    chain_getToken (λ c, getToken sdk c sc) sources None env.
Proof. done. Qed.

(** A chain of such credentials asks them in their order in the chain and
    stops at the first token; it constructs nothing and leaves the
    environment alone. *)
Lemma chain_getToken_run sources last env :
  forallb is_leaf sources = true →
  let r := chain_getToken (λ c, getToken sdk c sc) sources last env in
  trace r = (λ c, EvGetToken c sc) <$> until_issued sdk env sc sources ∧
  env_after r = env.
Proof.
  revert last. induction sources as [|c rest IH]; intros last Hl.
  - cbn. by destruct last.
  - cbn in Hl. apply andb_true_iff in Hl as [Hc Hrest].
    cbn [chain_getToken]. unfold mbind, M_bind, bind, attempt.
    rewrite (getToken_leaf c env Hc). cbn [until_issued].
    destruct (identityProvider sdk env c sc) as [t| |what]; [done| |].
    + destruct (IH last Hrest) as [Ht He]. unfold trace, env_after in *.
      destruct (chain_getToken _ rest last env) as [[o e] t]. cbn in *. by subst.
    + destruct (IH (Some (ErrSdk what)) Hrest) as [Ht He]. unfold trace, env_after in *.
      destruct (chain_getToken _ rest _ env) as [[o e] t]. cbn in *. by subst.
Qed.

Lemma until_issued_prefix env sources :
  until_issued sdk env sc sources `prefix_of` sources.
Proof.
  induction sources as [|c rest IH]; [done|]. cbn.
  destruct (identityProvider sdk env c sc).
  - by exists rest.
  - by apply prefix_cons.
  - by apply prefix_cons.
Qed.

End Credentials.

(** ** Token resolution *)

Section Resolution.

Variable sdk : Sdk.
Variable proc : Process.

(** The only variable a token resolution may write is the chain
    selector. *)
Lemma token_keeps_env k env :
  k ≠ "AZURE_TOKEN_CREDENTIALS" →
  env_after (getAzureDevOpsToken sdk proc env) !! k = env !! k.
Proof.
  intros Hk. unfold_program. crunch; by rewrite ?lookup_insert_ne.
Qed.

Lemma token_keeps_mode env :
  isObo (env_after (getAzureDevOpsToken sdk proc env)) = isObo env.
Proof. unfold isObo. by rewrite token_keeps_env. Qed.

(** The first thing the delegated path does is to write its diagnostic
    record, whose fields are the four settings as resolved. *)
Lemma obo_start_record env :
  isObo env = true →
  head (trace (getAzureDevOpsToken sdk proc env)) =
    Some (EvLog "[ADO][OBO] Starting OBO token acquisition"
            [("hasUserAssertion", js_of_string (userAssertionOf env));
             ("hasTenant", js_of_string (envTenantOf proc env));
             ("hasClientId", js_of_string (clientIdOf env));
             ("hasClientSecret", js_of_string (clientSecretOf env));
             ("orgUrl", JString (orgUrl proc))]).
Proof.
  unfold isObo. intros H. unfold_program. rewrite H. crunch; done.
Qed.

Lemma obo_trace env :
  isObo env = true →
  forallb obo_event (trace (getAzureDevOpsToken sdk proc env)) = true.
Proof.
  unfold isObo. intros H. unfold_program. rewrite H. crunch; done.
Qed.

Lemma obo_env env :
  isObo env = true →
  env_after (getAzureDevOpsToken sdk proc env) = env ∧
  assignments (trace (getAzureDevOpsToken sdk proc env)) = [].
Proof.
  unfold isObo. intros H. unfold_program. rewrite H. crunch; done.
Qed.

Lemma default_trace env :
  isObo env = false →
  forallb ambient_event (trace (getAzureDevOpsToken sdk proc env)) = true.
Proof.
  unfold isObo. intros H. unfold_program. rewrite H. crunch; done.
Qed.

(** The first thing the default path does is to assign the chain
    selector. *)
Lemma default_selector env :
  isObo env = false →
  head (trace (getAzureDevOpsToken sdk proc env)) =
    Some (EvSetEnv "AZURE_TOKEN_CREDENTIALS" (selector_value env)) ∧
  env_after (getAzureDevOpsToken sdk proc env) =
    <["AZURE_TOKEN_CREDENTIALS" := selector_value env]> env.
Proof.
  unfold isObo, selector_value. intros H. unfold_program. rewrite H.
  destruct (truthy (env !! "ADO_MCP_AZURE_TOKEN_CREDENTIALS")); crunch; done.
Qed.

Lemma takes_obo_path_mode env :
  takes_obo_path (trace (getAzureDevOpsToken sdk proc env)) = isObo env.
Proof.
  destruct (isObo env) eqn:E.
  - pose proof (obo_start_record env E) as H. unfold takes_obo_path.
    destruct (trace _) as [|ev tr]; [done|]. cbn in H. by simplify_eq.
  - by apply forallb_ambient_not_obo, default_trace.
Qed.

(** The environment a resolution leaves is the one the SDK found. *)
Lemma token_env_after env :
  env_after (getAzureDevOpsToken sdk proc env) = sdk_env env.
Proof.
  unfold sdk_env. destruct (isObo env) eqn:E.
  - by destruct (obo_env env E).
  - by destruct (default_selector env E).
Qed.

(** The delegated path, step by step. *)
Lemma obo_run env :
  isObo env = true →
  let start :=
    EvLog "[ADO][OBO] Starting OBO token acquisition"
      [("hasUserAssertion", js_of_string (userAssertionOf env));
       ("hasTenant", js_of_string (envTenantOf proc env));
       ("hasClientId", js_of_string (clientIdOf env));
       ("hasClientSecret", js_of_string (clientSecretOf env));
       ("orgUrl", JString (orgUrl proc))] in
  let obo :=
    OnBehalfOfCredential (str (envTenantOf proc env)) (str (clientIdOf env))
      (str (clientSecretOf env)) (str (userAssertionOf env)) in
  let acquired v := EvLog "[ADO][OBO] Token acquired" [("expiresOn", v)] in
  getAzureDevOpsToken sdk proc env =
    if negb (truthy (userAssertionOf env)) then (Throw ErrNoUserAssertion, env, [start])
    else if negb (truthy (envTenantOf proc env)) || negb (truthy (clientIdOf env)) ||
            negb (truthy (clientSecretOf env))
    then (Throw ErrOboSettings, env, [start])
    else
      match construct sdk env obo with
      | Some what => (Throw (ErrSdk what), env, [start; EvNew obo])
      | None =>
          match identityProvider sdk env obo scope with
          | Issued t =>
              (Ret t, env,
               [start; EvNew obo; EvGetToken obo scope;
                acquired (JNumber (expiresOnTimestamp t))])
          | Nothing =>
              (Throw ErrOboNoToken, env,
               [start; EvNew obo; EvGetToken obo scope; acquired JUndefined])
          | Rejected what =>
              (Throw (ErrSdk what), env, [start; EvNew obo; EvGetToken obo scope])
          end
      end.
Proof.
  unfold isObo, userAssertionOf, envTenantOf, clientIdOf, clientSecretOf, scope.
  intros H. cbn zeta. unfold_program. rewrite H.
  destruct (truthy (_ ||j env !! "ADO_USER_ASSERTION")); cbn -[js_or str]; [|done].
  destruct (negb _ || _ || _); cbn -[js_or str]; [done|].
  destruct (construct sdk env _); cbn -[js_or str]; [done|].
  by destruct (identityProvider sdk env _ _).
Qed.

(** The default path, step by step.  With a tenant id the two sources of
    the chain are asked in turn; what the chain makes of their replies is
    its own affair. *)
Lemma default_run env :
  isObo env = false →
  let e := sdk_env env in
  let set := EvSetEnv "AZURE_TOKEN_CREDENTIALS" (selector_value env) in
  let dflt := DefaultAzureCredential in
  let cli := AzureCliCredential (str (tenantId proc)) in
  let chain := ChainedTokenCredential [cli; dflt] in
  let ask c := EvGetToken c scope in
  getAzureDevOpsToken sdk proc env =
    match construct sdk e dflt with
    | Some what => (Throw (ErrSdk what), e, [set; EvNew dflt])
    | None =>
        if truthy (tenantId proc) then
          match construct sdk e cli with
          | Some what => (Throw (ErrSdk what), e, [set; EvNew dflt; EvNew cli])
          | None =>
              match construct sdk e chain with
              | Some what =>
                  (Throw (ErrSdk what), e, [set; EvNew dflt; EvNew cli; EvNew chain])
              | None =>
                  let built := [set; EvNew dflt; EvNew cli; EvNew chain] in
                  match identityProvider sdk e cli scope,
                        identityProvider sdk e dflt scope with
                  | Issued t, _ => (Ret t, e, built ++ [ask cli])
                  | Nothing, Issued t => (Ret t, e, built ++ [ask cli; ask dflt])
                  | Nothing, Nothing => (Throw ErrNoToken, e, built ++ [ask cli; ask dflt])
                  | Nothing, Rejected what =>
                      (Throw (ErrSdk what), e, built ++ [ask cli; ask dflt])
                  | Rejected _, Issued t => (Ret t, e, built ++ [ask cli; ask dflt])
                  | Rejected what, Nothing =>
                      (Throw (ErrSdk what), e, built ++ [ask cli; ask dflt])
                  | Rejected _, Rejected what =>
                      (Throw (ErrSdk what), e, built ++ [ask cli; ask dflt])
                  end
              end
          end
        else
          match identityProvider sdk e dflt scope with
          | Issued t => (Ret t, e, [set; EvNew dflt; ask dflt])
          | Nothing => (Throw ErrNoToken, e, [set; EvNew dflt; ask dflt])
          | Rejected what => (Throw (ErrSdk what), e, [set; EvNew dflt; ask dflt])
          end
    end.
Proof.
  unfold sdk_env. intros H. rewrite H. unfold isObo in H.
  unfold selector_value, scope. cbn zeta. unfold_program. rewrite H.
  destruct (truthy (env !! "ADO_MCP_AZURE_TOKEN_CREDENTIALS"));
    cbn -[lookup insert str];
    (destruct (construct sdk _ DefaultAzureCredential); cbn -[lookup insert str];
       [done|]);
    (destruct (truthy (tenantId proc)); cbn -[lookup insert str];
       [|by destruct (identityProvider sdk _ _ _)]);
    (destruct (construct sdk _ (AzureCliCredential _)); cbn -[lookup insert str];
       [done|]);
    (destruct (construct sdk _ (ChainedTokenCredential _)); cbn -[lookup insert str];
       [done|]);
    destruct (identityProvider sdk _ (AzureCliCredential _) _);
    cbn -[lookup insert str];
    first [done | by destruct (identityProvider sdk _ DefaultAzureCredential _)].
Qed.

End Resolution.

(** ** The chain selector *)

(** In the delegated mode the chain selector is not assigned at all,
    although a credential object is constructed. *)
Lemma selector_not_forced_in_obo :
  constructed (trace (getAzureDevOpsToken sdk_issuing proc_contoso env_obo)) =
    [OnBehalfOfCredential "72f988bf" "11111111-aaaa" "s3cr3t~value" "eyJ.user.assertion"] ∧
  env_after (getAzureDevOpsToken sdk_issuing proc_contoso env_obo)
    !! "AZURE_TOKEN_CREDENTIALS" = None ∧
  ¬ selector_forced sdk_issuing proc_contoso env_obo.
Proof.
  split; [by vm_compute|]. split; [by vm_compute|].
  intros [H _]. vm_compute in H. discriminate H.
Qed.

(** C1, as the program has it: on the default path the chain selector
    [AZURE_TOKEN_CREDENTIALS] is assigned, to the value of
    [ADO_MCP_AZURE_TOKEN_CREDENTIALS] when that is set and to ["dev"]
    otherwise, before any credential object is constructed; on the
    delegated path nothing is assigned and the environment is left as it
    was. *)
Theorem selector_forced_on_default_path sdk proc env :
  if isObo env then
    assignments (trace (getAzureDevOpsToken sdk proc env)) = [] ∧
    env_after (getAzureDevOpsToken sdk proc env) = env
  else
    selector_forced sdk proc env ∧
    assignments (trace (getAzureDevOpsToken sdk proc env)) =
      [("AZURE_TOKEN_CREDENTIALS", selector_value env)].
Proof.
  destruct (isObo env) eqn:E.
  - by destruct (obo_env sdk proc env E).
  - destruct (default_selector sdk proc env E) as [Hh He].
    unfold selector_forced. cbn zeta. rewrite He, lookup_insert_eq.
    revert Hh. clear He. unfold isObo in E. unfold_program. rewrite E.
    crunch; intros [= <-]; cbn -[String.eqb]; rewrite ?String.eqb_refl; done.
Qed.

(** ** The diagnostic records of the delegated path *)

(** The record written after the identity provider has answered carries
    the expiry time and nothing else. *)
Lemma acquired_record_expiry_only sdk proc env fields :
  EvLog "[ADO][OBO] Token acquired" fields ∈ trace (getAzureDevOpsToken sdk proc env) →
  ∃ v, fields = [("expiresOn", v)].
Proof.
  unfold_program. crunch; rewrite ?elem_of_cons, ?elem_of_nil; intros Hin;
    repeat destruct Hin as [Hin|Hin]; try done; simplify_eq; eauto.
Qed.

(** C2, at the complete delegated environment [env_obo]: the record
    written before the identity provider is called carries the user
    assertion and the client secret themselves, as strings, under the
    names [hasUserAssertion] and [hasClientSecret]; none of its fields is
    a presence flag. *)
Theorem start_record_discloses_secrets :
  ∃ fields,
    head (trace (getAzureDevOpsToken sdk_issuing proc_contoso env_obo)) =
      Some (EvLog "[ADO][OBO] Starting OBO token acquisition" fields) ∧
    field "hasUserAssertion" fields = Some (JString "eyJ.user.assertion") ∧
    field "hasTenant" fields = Some (JString "72f988bf") ∧
    field "hasClientId" fields = Some (JString "11111111-aaaa") ∧
    field "hasClientSecret" fields = Some (JString "s3cr3t~value") ∧
    existsb (λ kv, presence_flag kv.2) fields = false.
Proof.
  eexists. split; [by vm_compute|]. by vm_compute.
Qed.

(** ** One path per resolution *)

(** What each path does with its credentials. *)
Lemma obo_path_executes sdk proc env :
  isObo env = true →
  let r := getAzureDevOpsToken sdk proc env in
  let obo :=
    OnBehalfOfCredential (str (envTenantOf proc env)) (str (clientIdOf env))
      (str (clientSecretOf env)) (str (userAssertionOf env)) in
  (if truthy (userAssertionOf env) && truthy (envTenantOf proc env) &&
      truthy (clientIdOf env) && truthy (clientSecretOf env)
   then constructed (trace r) = [obo] ∧
        contacts (trace r) = match construct sdk env obo with
                             | None => [obo]
                             | Some _ => []
                             end
   else constructed (trace r) = [] ∧ contacts (trace r) = []) ∧
  ∀ t, outcome r = Ret t →
       last (contacts (trace r)) = Some obo ∧
       identityProvider sdk env obo scope = Issued t.
Proof.
  intros E. cbn zeta. rewrite (obo_run sdk proc env E). cbn zeta.
  destruct (truthy (userAssertionOf env)); cbn; [|done].
  destruct (truthy (envTenantOf proc env)); cbn; [|done].
  destruct (truthy (clientIdOf env)); cbn; [|done].
  destruct (truthy (clientSecretOf env)); cbn; [|done].
  destruct (construct sdk env _); [done|].
  destruct (identityProvider sdk env _ scope) eqn:Hi; cbn; (split; [done|]);
    by intros ? [= <-].
Qed.

Lemma default_path_executes sdk proc env :
  isObo env = false →
  let r := getAzureDevOpsToken sdk proc env in
  head (constructed (trace r)) = Some DefaultAzureCredential ∧
  (Forall (λ c, construct sdk (sdk_env env) c = None) (constructed (trace r)) →
   contacts (trace r) ≠ []) ∧
  ∀ t, outcome r = Ret t →
       ∃ c, last (contacts (trace r)) = Some c ∧
            is_obo_credential c = false ∧
            identityProvider sdk (sdk_env env) c scope = Issued t.
Proof.
  intros E. cbn zeta. rewrite (default_run sdk proc env E). cbn zeta.
  destruct (construct sdk _ DefaultAzureCredential) eqn:H1.
  { cbn. split; [done|]. split; [|done]. intros HF; repeat (apply Forall_cons_1 in HF as [? HF]); congruence. }
  destruct (truthy (tenantId proc)).
  - destruct (construct sdk _ (AzureCliCredential _)) eqn:H2.
    { cbn. split; [done|]. split; [|done].
      intros HF; repeat (apply Forall_cons_1 in HF as [? HF]); congruence. }
    destruct (construct sdk _ (ChainedTokenCredential _)) eqn:H3.
    { cbn. split; [done|]. split; [|done].
      intros HF; repeat (apply Forall_cons_1 in HF as [? HF]); congruence. }
    destruct (identityProvider sdk _ (AzureCliCredential _) scope) eqn:Hc;
      try destruct (identityProvider sdk _ DefaultAzureCredential scope) eqn:Hd;
      cbn; (split; [done|]); (split; [done|]); intros ? [= <-]; eauto.
  - destruct (identityProvider sdk _ DefaultAzureCredential scope) eqn:Hd;
      cbn; (split; [done|]); (split; [done|]); intros ? [= <-]; eauto.
Qed.

(** C3: a token resolution runs the delegated path exactly when the mode
    flag says so, and the default path otherwise, and it does run it.  The
    two paths have no event in common and every run leaves at least one
    event.  In the delegated mode every credential constructed or asked is
    the on-behalf-of one: with the four settings present it is constructed
    from them, and asked unless its constructor throws; with a setting
    missing nothing is constructed or asked.  In the default mode no
    on-behalf-of credential is constructed or asked: the ambient default
    credential is constructed first, and when no constructor throws a
    credential is asked.  A token returned is the one the provider issued
    to the last credential asked in this run, a credential of the mode's
    own kind. *)
Theorem exactly_one_path sdk proc env :
  let r := getAzureDevOpsToken sdk proc env in
  let tr := trace r in
  (∀ ev, obo_event ev && ambient_event ev = false) ∧
  tr ≠ [] ∧
  (∀ t, outcome r = Ret t →
        ∃ c, last (contacts tr) = Some c ∧
             is_obo_credential c = isObo env ∧
             identityProvider sdk (sdk_env env) c scope = Issued t) ∧
  if isObo env then
    forallb obo_event tr = true ∧ existsb ambient_event tr = false ∧
    forallb is_obo_credential (constructed tr ++ contacts tr) = true ∧
    let obo :=
      OnBehalfOfCredential (str (envTenantOf proc env)) (str (clientIdOf env))
        (str (clientSecretOf env)) (str (userAssertionOf env)) in
    if truthy (userAssertionOf env) && truthy (envTenantOf proc env) &&
       truthy (clientIdOf env) && truthy (clientSecretOf env)
    then constructed tr = [obo] ∧
         contacts tr = match construct sdk env obo with
                       | None => [obo]
                       | Some _ => []
                       end
    else constructed tr = [] ∧ contacts tr = []
  else
    forallb ambient_event tr = true ∧ existsb obo_event tr = false ∧
    existsb is_obo_credential (constructed tr ++ contacts tr) = false ∧
    head (constructed tr) = Some DefaultAzureCredential ∧
    (Forall (λ c, construct sdk (sdk_env env) c = None) (constructed tr) →
     contacts tr ≠ []).
Proof.
  cbn zeta. split; [apply obo_ambient_disjoint|].
  destruct (isObo env) eqn:E.
  - pose proof (obo_trace sdk proc env E) as Ht.
    pose proof (obo_start_record sdk proc env E) as Hh.
    destruct (obo_path_executes sdk proc env E) as [Hx Hr].
    split; [by intros Hnil; rewrite Hnil in Hh|]. split.
    { intros t Hok. destruct (Hr t Hok) as [Hl Hi]. eexists. split; [exact Hl|].
      unfold sdk_env. by rewrite E. }
    auto using forallb_obo_not_ambient, obo_events_credentials.
  - pose proof (default_trace sdk proc env E) as Ht.
    destruct (default_selector sdk proc env E) as [Hh _].
    destruct (default_path_executes sdk proc env E) as (Hc & Ha & Hr).
    split; [by intros Hnil; rewrite Hnil in Hh|]. split; [exact Hr|].
    split; [done|]. split; [by apply forallb_ambient_not_obo|].
    split; [by apply ambient_events_credentials|]. done.
Qed.

(** ** Missing settings of the delegated mode *)

(** C4: in the delegated mode, when the user assertion, the tenant, the
    client id or the client secret is absent, the resolution throws a
    configuration error without having constructed a credential or called
    the identity provider; the error is the one about the user assertion
    when that is absent, and otherwise the single error that names the
    three other settings. *)
Theorem obo_missing_setting_fails_early sdk proc env
    (Hobo : isObo env = true)
    (Hmissing : truthy (userAssertionOf env) && truthy (envTenantOf proc env) &&
                truthy (clientIdOf env) && truthy (clientSecretOf env) = false) :
  let r := getAzureDevOpsToken sdk proc env in
  ∃ e, outcome r = Throw e ∧
       kind e = ConfigurationError ∧
       contacts (trace r) = [] ∧
       constructed (trace r) = [] ∧
       e = if truthy (userAssertionOf env) then ErrOboSettings else ErrNoUserAssertion.
Proof.
  unfold isObo in Hobo. revert Hmissing.
  unfold userAssertionOf, envTenantOf, clientIdOf, clientSecretOf.
  unfold_program. rewrite Hobo.
  destruct (truthy (_ ||j env !! "ADO_USER_ASSERTION")); cbn -[js_or];
    [|by eexists].
  destruct (truthy (_ ||j tenantId proc)); cbn -[js_or]; [|by eexists].
  destruct (truthy (_ ||j env !! "AZURE_CLIENT_ID")); cbn -[js_or]; [|by eexists].
  intros ->. by eexists.
Qed.

Lemma obo_missing_setting_fails_early_witness :
  isObo env_obo_no_secret = true ∧
  ∃ e, outcome (getAzureDevOpsToken sdk_issuing proc_contoso env_obo_no_secret) = Throw e ∧
       kind e = ConfigurationError ∧
       contacts (trace (getAzureDevOpsToken sdk_issuing proc_contoso env_obo_no_secret)) = [] ∧
       constructed (trace (getAzureDevOpsToken sdk_issuing proc_contoso env_obo_no_secret)) = [] ∧
       e = ErrOboSettings.
Proof.
  split; [reflexivity|].
  apply (obo_missing_setting_fails_early sdk_issuing proc_contoso env_obo_no_secret);
    reflexivity.
Defined.

(** ** Client construction *)

Section Client.

Variable sdk : Sdk.
Variable proc : Process.
Variable ua : UserAgentComposer.

(** An error of the token resolution is the error of the client
    construction, which does nothing further. *)
Lemma client_propagates env e :
  outcome (getAzureDevOpsToken sdk proc env) = Throw e →
  getAzureDevOpsClient sdk proc ua env =
    (Throw e, env_after (getAzureDevOpsToken sdk proc env),
     trace (getAzureDevOpsToken sdk proc env)).
Proof.
  unfold getAzureDevOpsClient, mbind, M_bind, bind, outcome, env_after, trace.
  destruct (getAzureDevOpsToken sdk proc env) as [[o e'] t]. cbn. by intros ->.
Qed.

(** After a successful resolution the client is built around the token
    just obtained, by the constructor that the mode flag and the SDK
    surface select. *)
Lemma client_builds env t :
  outcome (getAzureDevOpsToken sdk proc env) = Ret t →
  ∃ h, getAzureDevOpsClient sdk proc ua env =
         (Ret h, env_after (getAzureDevOpsToken sdk proc env),
          trace (getAzureDevOpsToken sdk proc env) ++
          [EvWebApi h;
           EvLog "[ADO] WebApi client initialized"
             [("orgUrl", JString (orgUrl proc));
              ("authMode", js_lower (js_or_empty (env !! "ADO_AUTH")))]]) ∧
       bearer h = token t ∧
       serverUrl h = orgUrl proc ∧
       via h = if isObo env && hasCreateWithBearerToken sdk
               then CreateWithBearerToken else BearerHandler.
Proof.
  intros Ht. pose proof (token_keeps_env sdk proc "ADO_AUTH" env) as Hk.
  unfold getAzureDevOpsClient, mbind, M_bind, bind, process_env, emit, mret,
    M_ret, ret, isObo, outcome, env_after, trace in *.
  destruct (getAzureDevOpsToken sdk proc env) as [[o e'] tr]. cbn in Ht, Hk.
  subst o. cbn. rewrite Hk by done. eexists. split; [reflexivity|].
  by destruct (_ && _).
Qed.

(** A client construction asks and constructs what its token resolution
    asks and constructs, and nothing more. *)
Lemma client_contacts env :
  contacts (trace (getAzureDevOpsClient sdk proc ua env)) =
    contacts (trace (getAzureDevOpsToken sdk proc env)) ∧
  constructed (trace (getAzureDevOpsClient sdk proc ua env)) =
    constructed (trace (getAzureDevOpsToken sdk proc env)).
Proof.
  destruct (outcome (getAzureDevOpsToken sdk proc env)) as [t|e] eqn:E.
  - destruct (client_builds env t E) as (h & -> & _).
    rewrite trace_run, contacts_app, constructed_app. cbn [contacts constructed].
    by rewrite !app_nil_r.
  - by rewrite (client_propagates env e E).
Qed.

(** No credential is constructed twice or asked twice in one
    resolution. *)
Lemma token_NoDup env :
  NoDup (contacts (trace (getAzureDevOpsToken sdk proc env))) ∧
  NoDup (constructed (trace (getAzureDevOpsToken sdk proc env))).
Proof.
  destruct (isObo env) eqn:E;
    [rewrite (obo_run sdk proc env E) | rewrite (default_run sdk proc env E)];
    cbn zeta; repeat case_match; cbn;
    split;
    repeat (apply NoDup_cons; split;
      [rewrite ?elem_of_cons, ?elem_of_nil; intuition discriminate|]);
    apply NoDup_nil_2.
Qed.

(** When the provider has been asked and has had no token to give, the
    resolution ends in the authentication error of its path. *)
Lemma token_nothing env :
  contacts (trace (getAzureDevOpsToken sdk proc env)) ≠ [] →
  (∀ c, c ∈ contacts (trace (getAzureDevOpsToken sdk proc env)) →
        identityProvider sdk (sdk_env env) c scope = Nothing) →
  outcome (getAzureDevOpsToken sdk proc env) =
    Throw (if isObo env then ErrOboNoToken else ErrNoToken).
Proof.
  destruct (isObo env) eqn:E;
    [rewrite (obo_run sdk proc env E) | rewrite (default_run sdk proc env E)];
    unfold sdk_env; rewrite E; cbn zeta; repeat case_match; cbn;
    intros Hcalled Hnothing; try done;
    repeat match goal with
    | H : identityProvider sdk _ ?c _ = Issued _ |- _ =>
        rewrite Hnothing in H by (rewrite ?elem_of_cons; auto); discriminate H
    | H : identityProvider sdk _ ?c _ = Rejected _ |- _ =>
        rewrite Hnothing in H by (rewrite ?elem_of_cons; auto); discriminate H
    end.
Qed.

(** A token resolution constructs no client. *)
Lemma token_builds_no_client env :
  webapis (trace (getAzureDevOpsToken sdk proc env)) = [].
Proof.
  destruct (isObo env) eqn:E;
    [rewrite (obo_run sdk proc env E) | rewrite (default_run sdk proc env E)];
    cbn zeta; repeat case_match; done.
Qed.

End Client.

(** C5: an error of the token resolution, whatever it is, is the error of
    the client construction, which then has done what the resolution did
    and nothing else: no second attempt, no client.  A client construction
    constructs and asks what its one token resolution constructs and asks,
    no credential twice.  When the identity provider has been asked and
    has returned no token, the error is the authentication error of the
    path that was taken. *)
Theorem no_token_no_client sdk proc ua env :
  let r := getAzureDevOpsClient sdk proc ua env in
  let rt := getAzureDevOpsToken sdk proc env in
  (∀ e, outcome rt = Throw e → r = (Throw e, env_after rt, trace rt)) ∧
  (∀ e, outcome r = Throw e → outcome rt = Throw e ∧ webapis (trace r) = []) ∧
  contacts (trace r) = contacts (trace rt) ∧
  constructed (trace r) = constructed (trace rt) ∧
  NoDup (contacts (trace r)) ∧
  NoDup (constructed (trace r)) ∧
  (contacts (trace r) ≠ [] →
   (∀ c, c ∈ contacts (trace r) → identityProvider sdk (sdk_env env) c scope = Nothing) →
   ∃ e, outcome r = Throw e ∧
        kind e = AuthenticationError ∧
        e = (if isObo env then ErrOboNoToken else ErrNoToken) ∧
        webapis (trace r) = []).
Proof.
  cbn zeta. destruct (client_contacts sdk proc ua env) as [Hc Hn].
  destruct (token_NoDup sdk proc env) as [Hdc Hdn].
  rewrite Hc, Hn.
  split; [intros e He; by apply client_propagates|].
  split.
  { intros e He.
    destruct (outcome (getAzureDevOpsToken sdk proc env)) as [t|e'] eqn:E.
    - destruct (client_builds sdk proc ua env t E) as (h & Hr & _).
      rewrite Hr, outcome_run in He. discriminate He.
    - rewrite (client_propagates sdk proc ua env e' E) in He |- *.
      rewrite outcome_run in He. rewrite trace_run. injection He as <-.
      split; [done|]. apply token_builds_no_client. }
  do 4 (split; [done|]).
  intros Hcalled Hnothing.
  pose proof (token_nothing sdk proc env Hcalled Hnothing) as He.
  rewrite (client_propagates sdk proc ua env _ He), outcome_run, trace_run.
  eexists. split; [done|]. split; [by destruct (isObo env)|].
  split; [done|]. apply token_builds_no_client.
Qed.

Lemma no_token_no_client_witness :
  contacts (trace (getAzureDevOpsClient sdk_silent proc_tenant ua_sample env_prod)) =
    [AzureCliCredential "72f988bf"; DefaultAzureCredential] ∧
  outcome (getAzureDevOpsClient sdk_silent proc_tenant ua_sample env_prod) = Throw ErrNoToken ∧
  webapis (trace (getAzureDevOpsClient sdk_silent proc_tenant ua_sample env_prod)) = [].
Proof.
  split; [reflexivity|].
  destruct (no_token_no_client sdk_silent proc_tenant ua_sample env_prod)
    as (_ & _ & _ & _ & _ & _ & H).
  destruct H as (e & He & _ & -> & Hw); [by vm_compute | reflexivity |].
  split; [exact He | exact Hw].
Defined.

(** A token object whose string is empty passes the check of the token
    resolution, and the client is built around the empty string. *)
Lemma blank_token_builds_client :
  ∃ h, outcome (getAzureDevOpsClient sdk_blank proc_contoso ua_sample ∅) = Ret h ∧
       webapis (trace (getAzureDevOpsClient sdk_blank proc_contoso ua_sample ∅)) = [h] ∧
       bearer h = "".
Proof. eexists. by vm_compute. Qed.

(** C6, as the program has it: on every successful client construction
    exactly one client is constructed, and the string given to its
    constructor is the string of the token object that the token
    resolution of that same call returned, which the identity provider
    issued during that call; it is a non-empty string whenever the
    provider issued a non-empty one. *)
Theorem client_bearer_is_resolved_token sdk proc ua env h
    (Hok : outcome (getAzureDevOpsClient sdk proc ua env) = Ret h) :
  let r := getAzureDevOpsClient sdk proc ua env in
  let rt := getAzureDevOpsToken sdk proc env in
  ∃ t c, outcome rt = Ret t ∧
         bearer h = token t ∧
         c ∈ contacts (trace r) ∧
         identityProvider sdk (sdk_env env) c scope = Issued t ∧
         webapis (trace r) = [h] ∧
         (token t ≠ "" → bearer h ≠ "").
Proof.
  cbn zeta.
  destruct (outcome (getAzureDevOpsToken sdk proc env)) as [t|e] eqn:E;
    [|by rewrite (client_propagates sdk proc ua env e E) in Hok].
  destruct (client_builds sdk proc ua env t E) as (h' & Hr & Hb & _).
  rewrite Hr in Hok |- *. rewrite outcome_run in Hok. simplify_eq.
  rewrite trace_run, contacts_app, webapis_app. cbn [contacts webapis].
  rewrite app_nil_r.
  assert (∃ c, c ∈ contacts (trace (getAzureDevOpsToken sdk proc env)) ∧
               identityProvider sdk (sdk_env env) c scope = Issued t) as (c & Hc & Hi).
  { destruct (isObo env) eqn:Em.
    - destruct (obo_path_executes sdk proc env Em) as [_ Hx].
      destruct (Hx t E) as [Hl Hi]. eexists. split; [by eapply last_Some_elem_of|].
      unfold sdk_env. by rewrite Em.
    - destruct (default_path_executes sdk proc env Em) as (_ & _ & Hx).
      destruct (Hx t E) as (c & Hl & _ & Hi). exists c.
      split; [by eapply last_Some_elem_of | done]. }
  exists t, c. rewrite token_builds_no_client, Hb. done.
Qed.

Lemma client_bearer_is_resolved_token_witness :
  ∃ h t c,
    outcome (getAzureDevOpsClient sdk_no_cli proc_tenant ua_sample env_prod) = Ret h ∧
    outcome (getAzureDevOpsToken sdk_no_cli proc_tenant env_prod) = Ret t ∧
    bearer h = token t ∧
    c ∈ contacts (trace (getAzureDevOpsClient sdk_no_cli proc_tenant ua_sample env_prod)) ∧
    identityProvider sdk_no_cli (sdk_env env_prod) c scope = Issued t.
Proof.
  eexists.
  destruct (client_bearer_is_resolved_token sdk_no_cli proc_tenant ua_sample env_prod _
              eq_refl) as (t & c & Ht & Hb & Hc & Hi & _).
  exists t, c. split; [reflexivity|]. done.
Defined.

(** ** The mode flag over the life of the process *)

Lemma client_takes_obo_path sdk proc ua env :
  takes_obo_path (trace (getAzureDevOpsClient sdk proc ua env)) = isObo env.
Proof.
  destruct (outcome (getAzureDevOpsToken sdk proc env)) as [t|e] eqn:E.
  - destruct (client_builds sdk proc ua env t E) as (h & -> & _).
    rewrite trace_run. unfold takes_obo_path. rewrite existsb_app. cbn.
    rewrite orb_false_r. apply takes_obo_path_mode.
  - rewrite (client_propagates sdk proc ua env e E), trace_run.
    apply takes_obo_path_mode.
Qed.

(** Two token resolutions of one process, with the mode flag assigned in
    between: the first runs the default path and the second the delegated
    one. *)
Lemma mode_changes_between_calls :
  ∃ t2,
    trace (resolve_twice sdk_issuing proc_contoso "ADO_AUTH" "obo" env_flag_unset) =
      trace (getAzureDevOpsToken sdk_issuing proc_contoso env_flag_unset) ++
      EvSetEnv "ADO_AUTH" "obo" :: t2 ∧
    takes_obo_path (trace (getAzureDevOpsToken sdk_issuing proc_contoso env_flag_unset)) = false ∧
    takes_obo_path t2 = true ∧
    constructed (trace (getAzureDevOpsToken sdk_issuing proc_contoso env_flag_unset)) =
      [DefaultAzureCredential] ∧
    constructed t2 =
      [OnBehalfOfCredential "72f988bf" "11111111-aaaa" "s3cr3t~value" "eyJ.user.assertion"].
Proof. eexists. split; [by vm_compute|]. by vm_compute. Qed.

(** C7, as the program has it: the mode is derived from [ADO_AUTH] anew
    by every token resolution and every client construction, so that two
    operations which find the same value of [ADO_AUTH] observe the same
    mode, whatever else differs in their environments. *)
Theorem mode_read_at_each_call sdk proc ua env1 env2
    (Hsame : env1 !! "ADO_AUTH" = env2 !! "ADO_AUTH") :
  takes_obo_path (trace (getAzureDevOpsToken sdk proc env1)) = isObo env1 ∧
  takes_obo_path (trace (getAzureDevOpsClient sdk proc ua env1)) = isObo env1 ∧
  takes_obo_path (trace (getAzureDevOpsToken sdk proc env1)) =
    takes_obo_path (trace (getAzureDevOpsToken sdk proc env2)) ∧
  takes_obo_path (trace (getAzureDevOpsClient sdk proc ua env1)) =
    takes_obo_path (trace (getAzureDevOpsClient sdk proc ua env2)) ∧
  ∀ h1 h2,
    outcome (getAzureDevOpsClient sdk proc ua env1) = Ret h1 →
    outcome (getAzureDevOpsClient sdk proc ua env2) = Ret h2 →
    via h1 = via h2.
Proof.
  assert (isObo env1 = isObo env2) as Hm by (unfold isObo; by rewrite Hsame).
  rewrite !takes_obo_path_mode, !client_takes_obo_path.
  do 4 (split; [done|]). intros h1 h2 H1 H2.
  assert (∀ env h, outcome (getAzureDevOpsClient sdk proc ua env) = Ret h →
            via h = if isObo env && hasCreateWithBearerToken sdk
                    then CreateWithBearerToken else BearerHandler) as Hvia.
  { intros env h Hh.
    destruct (outcome (getAzureDevOpsToken sdk proc env)) as [t|e] eqn:E;
      [|by rewrite (client_propagates sdk proc ua env e E) in Hh].
    destruct (client_builds sdk proc ua env t E) as (h' & Hr & _ & _ & Hv).
    rewrite Hr, outcome_run in Hh. by simplify_eq. }
  by rewrite (Hvia _ _ H1), (Hvia _ _ H2), Hm.
Qed.

Lemma mode_read_at_each_call_witness :
  env_obo !! "ADO_AUTH" = <["ADO_MCP_AZURE_TOKEN_CREDENTIALS" := "prod"]> env_obo !! "ADO_AUTH" ∧
  takes_obo_path (trace (getAzureDevOpsToken sdk_issuing proc_contoso env_obo)) =
    takes_obo_path (trace (getAzureDevOpsToken sdk_issuing proc_contoso
                             (<["ADO_MCP_AZURE_TOKEN_CREDENTIALS" := "prod"]> env_obo))).
Proof.
  split; [reflexivity|].
  apply (mode_read_at_each_call sdk_issuing proc_contoso ua_sample env_obo
           (<["ADO_MCP_AZURE_TOKEN_CREDENTIALS" := "prod"]> env_obo)).
  reflexivity.
Defined.

(** ** The chain of the default path *)

(** C8: on the default path with a tenant id, the chain that is built
    holds the CLI credential of that tenant and then the ambient default
    credential, and they are asked in that order, the second only when the
    first has not produced a token; without a tenant id only the ambient
    default credential is built and asked.  The constructors are called
    in the order default credential, CLI credential, chain; when one of
    them throws, its error is the outcome and no credential is asked. *)
Theorem default_chain_order sdk proc env (Hdefault : isObo env = false) :
  let r := getAzureDevOpsToken sdk proc env in
  let tr := trace r in
  let e := sdk_env env in
  let dflt := DefaultAzureCredential in
  if truthy (tenantId proc) then
    let cli := AzureCliCredential (str (tenantId proc)) in
    let chain := ChainedTokenCredential [cli; dflt] in
    match construct sdk e dflt, construct sdk e cli, construct sdk e chain with
    | None, None, None =>
        constructed tr = [dflt; cli; chain] ∧
        contacts tr = until_issued sdk e scope [cli; dflt] ∧
        (contacts tr = [cli] ∨ contacts tr = [cli; dflt])
    | Some what, _, _ =>
        constructed tr = [dflt] ∧ contacts tr = [] ∧ outcome r = Throw (ErrSdk what)
    | None, Some what, _ =>
        constructed tr = [dflt; cli] ∧ contacts tr = [] ∧ outcome r = Throw (ErrSdk what)
    | None, None, Some what =>
        constructed tr = [dflt; cli; chain] ∧ contacts tr = [] ∧
        outcome r = Throw (ErrSdk what)
    end
  else
    match construct sdk e dflt with
    | None => constructed tr = [dflt] ∧ contacts tr = [dflt]
    | Some what =>
        constructed tr = [dflt] ∧ contacts tr = [] ∧ outcome r = Throw (ErrSdk what)
    end.
Proof.
  cbn zeta. rewrite (default_run sdk proc env Hdefault). cbn zeta.
  destruct (truthy (tenantId proc)) eqn:Ht.
  - destruct (construct sdk _ DefaultAzureCredential); [done|].
    destruct (construct sdk _ (AzureCliCredential _)); [done|].
    destruct (construct sdk _ (ChainedTokenCredential _)); [done|].
    cbn [until_issued].
    destruct (identityProvider sdk _ (AzureCliCredential _) scope);
      try destruct (identityProvider sdk _ DefaultAzureCredential scope);
      cbn; auto.
  - destruct (construct sdk _ DefaultAzureCredential); [done|].
    by destruct (identityProvider sdk _ DefaultAzureCredential scope).
Qed.

Lemma default_chain_order_witness :
  isObo env_prod = false ∧
  constructed (trace (getAzureDevOpsToken sdk_no_cli proc_tenant env_prod)) =
    [DefaultAzureCredential; AzureCliCredential "72f988bf";
     ChainedTokenCredential [AzureCliCredential "72f988bf"; DefaultAzureCredential]] ∧
  contacts (trace (getAzureDevOpsToken sdk_no_cli proc_tenant env_prod)) =
    [AzureCliCredential "72f988bf"; DefaultAzureCredential].
Proof.
  split; [reflexivity|].
  destruct (default_chain_order sdk_no_cli proc_tenant env_prod eq_refl) as (Hc & Ha & _).
  split; [exact Hc | exact Ha].
Defined.

(** ** Where the settings of the delegated mode come from *)

(** The tenant id of the process is the [--tenant] flag, or else
    [AZURE_AD_TENANT_ID] as it was when the module was loaded. *)
Lemma startup_tenant_flag :
  startup {| organization := "contoso"; tenant := Some "72f988bf" |} ∅ = Ret proc_tenant.
Proof. reflexivity. Qed.

(** An empty positional argument leaves the organization to [ADO_ORG]. *)
Lemma startup_requires_organization argv env :
  organization argv = "" →
  truthy (env !! "ADO_ORG") = false →
  startup argv env = Throw ErrNoOrganization.
Proof.
  intros Ha He. unfold startup. by rewrite Ha, js_or_falsy, He.
Qed.

(** With neither tenant variable in the environment, the on-behalf-of
    credential is still built, for the tenant id the process was started
    with. *)
Lemma tenant_has_third_source :
  env_obo_no_tenant !! "AZURE_AD_TENANT_ID" = None ∧
  env_obo_no_tenant !! "AZURE_TENANT_ID" = None ∧
  nonEmpty (envTenantOf proc_tenant env_obo_no_tenant) ≠
    firstNonEmpty (env_obo_no_tenant !! "AZURE_AD_TENANT_ID")
                  (env_obo_no_tenant !! "AZURE_TENANT_ID") ∧
  constructed (trace (getAzureDevOpsToken sdk_issuing proc_tenant env_obo_no_tenant)) =
    [OnBehalfOfCredential "72f988bf" "11111111-aaaa" "s3cr3t~value" "eyJ.user.assertion"] ∧
  outcome (getAzureDevOpsToken sdk_issuing proc_tenant env_obo_no_tenant) = Ret sample_token.
Proof. by vm_compute. Qed.

(** C9, as the program has it: the user assertion, the client id and the
    client secret each come from two environment variables, a primary and
    a fallback, the first non-empty one winning; the tenant id comes from
    its two environment variables in the same way and, when both are
    empty, from the tenant id of the process.  The on-behalf-of
    credential is built from exactly these four values, and is not built
    when one of them is missing. *)
Theorem obo_settings_sources sdk proc env (Hobo : isObo env = true) :
  let tr := trace (getAzureDevOpsToken sdk proc env) in
  let assertion := firstNonEmpty (env !! "MCP_USER_ASSERTION") (env !! "ADO_USER_ASSERTION") in
  let tenant :=
    firstNonEmpty
      (firstNonEmpty (env !! "AZURE_AD_TENANT_ID") (env !! "AZURE_TENANT_ID"))
      (tenantId proc) in
  let client := firstNonEmpty (env !! "AZURE_AD_CLIENT_ID") (env !! "AZURE_CLIENT_ID") in
  let secret := firstNonEmpty (env !! "AZURE_AD_CLIENT_SECRET") (env !! "AZURE_CLIENT_SECRET") in
  nonEmpty (userAssertionOf env) = assertion ∧
  nonEmpty (envTenantOf proc env) = tenant ∧
  nonEmpty (clientIdOf env) = client ∧
  nonEmpty (clientSecretOf env) = secret ∧
  match assertion, tenant, client, secret with
  | Some a, Some t, Some c, Some s => constructed tr = [OnBehalfOfCredential t c s a]
  | _, _, _, _ => constructed tr = []
  end.
Proof.
  cbn zeta.
  assert (nonEmpty (envTenantOf proc env) =
          firstNonEmpty
            (firstNonEmpty (env !! "AZURE_AD_TENANT_ID") (env !! "AZURE_TENANT_ID"))
            (tenantId proc)) as Htenant.
  { unfold envTenantOf. rewrite js_or_firstNonEmpty. unfold firstNonEmpty at 1 2.
    by rewrite js_or_firstNonEmpty, nonEmpty_firstNonEmpty. }
  rewrite <- Htenant. unfold userAssertionOf, clientIdOf, clientSecretOf.
  rewrite <- !js_or_firstNonEmpty. do 4 (split; [done|]).
  unfold isObo in Hobo. unfold envTenantOf.
  unfold getAzureDevOpsToken, mbind, M_bind, bind, process_env, emit.
  rewrite Hobo.
  destruct (truthy (_ ||j env !! "ADO_USER_ASSERTION")) eqn:H1;
    [rewrite (nonEmpty_str _ H1) | by rewrite (nonEmpty_falsy _ H1)].
  destruct (truthy (_ ||j tenantId proc)) eqn:H2;
    [rewrite (nonEmpty_str _ H2) | by rewrite (nonEmpty_falsy _ H2)].
  destruct (truthy (_ ||j env !! "AZURE_CLIENT_ID")) eqn:H3;
    [rewrite (nonEmpty_str _ H3) | by rewrite (nonEmpty_falsy _ H3)].
  destruct (truthy (_ ||j env !! "AZURE_CLIENT_SECRET")) eqn:H4;
    [rewrite (nonEmpty_str _ H4) | by rewrite (nonEmpty_falsy _ H4)].
  unfold_program. crunch; done.
Qed.

Lemma obo_settings_sources_witness :
  isObo env_obo_no_tenant = true ∧
  constructed (trace (getAzureDevOpsToken sdk_issuing proc_tenant env_obo_no_tenant)) =
    [OnBehalfOfCredential "72f988bf" "11111111-aaaa" "s3cr3t~value" "eyJ.user.assertion"].
Proof.
  split; [reflexivity|].
  destruct (obo_settings_sources sdk_issuing proc_tenant env_obo_no_tenant eq_refl)
    as (_ & _ & _ & _ & H).
  exact H.
Defined.

(** ** The spelling of the mode flag *)

Lemma isObo_unset env : env !! "ADO_AUTH" = None → isObo env = false.
Proof. unfold isObo. by intros ->. Qed.

(** On the default path the program raises one error of its own, the one
    for a missing token; every other error comes from the SDK. *)
Lemma default_errors sdk proc env e :
  isObo env = false →
  outcome (getAzureDevOpsToken sdk proc env) = Throw e →
  e = ErrNoToken ∨ ∃ what, e = ErrSdk what.
Proof.
  intros E. rewrite (default_run sdk proc env E). cbn zeta.
  repeat case_match; intros [= <-]; eauto.
Qed.

(** C10: the delegated path is taken exactly for the eight spellings of
    ["obo"] in upper and lower case, and it is run: its record is written
    first, and with the four settings present the on-behalf-of credential
    is constructed and, unless its constructor throws, asked.  For any
    other value of the flag, or none, the default path is run: the chain
    selector is assigned first, the ambient default credential is
    constructed, a credential is asked when no constructor throws, and
    the only errors are the one for a missing token and those of the SDK.
    When the resolution has returned a token, the client construction
    makes the same comparison again, on a flag that the resolution has not
    touched, to choose its constructor, builds exactly one client around
    that token and reports the mode it read; when the resolution has
    failed, no client is built. *)
Theorem mode_flag_case_insensitive sdk proc ua env :
  let r := getAzureDevOpsToken sdk proc env in
  let rc := getAzureDevOpsClient sdk proc ua env in
  (isObo env = true ↔ ∃ v, env !! "ADO_AUTH" = Some v ∧ toLowerCase v = "obo") ∧
  (∀ v, toLowerCase v = "obo" ↔ v ∈ obo_spellings) ∧
  takes_obo_path (trace r) = isObo env ∧
  (if isObo env then
     let obo :=
       OnBehalfOfCredential (str (envTenantOf proc env)) (str (clientIdOf env))
         (str (clientSecretOf env)) (str (userAssertionOf env)) in
     head (trace r) =
       Some (EvLog "[ADO][OBO] Starting OBO token acquisition"
               [("hasUserAssertion", js_of_string (userAssertionOf env));
                ("hasTenant", js_of_string (envTenantOf proc env));
                ("hasClientId", js_of_string (clientIdOf env));
                ("hasClientSecret", js_of_string (clientSecretOf env));
                ("orgUrl", JString (orgUrl proc))]) ∧
     if truthy (userAssertionOf env) && truthy (envTenantOf proc env) &&
        truthy (clientIdOf env) && truthy (clientSecretOf env)
     then constructed (trace r) = [obo] ∧
          contacts (trace r) = match construct sdk env obo with
                               | None => [obo]
                               | Some _ => []
                               end
     else constructed (trace r) = [] ∧ contacts (trace r) = []
   else
     head (trace r) = Some (EvSetEnv "AZURE_TOKEN_CREDENTIALS" (selector_value env)) ∧
     head (constructed (trace r)) = Some DefaultAzureCredential ∧
     (Forall (λ c, construct sdk (sdk_env env) c = None) (constructed (trace r)) →
      contacts (trace r) ≠ []) ∧
     ∀ e, outcome r = Throw e → e = ErrNoToken ∨ ∃ what, e = ErrSdk what) ∧
  isObo (env_after r) = isObo env ∧
  match outcome r with
  | Ret t =>
      ∃ h, outcome rc = Ret h ∧
           webapis (trace rc) = [h] ∧
           bearer h = token t ∧
           via h = (if isObo env && hasCreateWithBearerToken sdk
                    then CreateWithBearerToken else BearerHandler) ∧
           last (trace rc) =
             Some (EvLog "[ADO] WebApi client initialized"
                     [("orgUrl", JString (orgUrl proc));
                      ("authMode", js_lower (js_or_empty (env !! "ADO_AUTH")))])
  | Throw e => outcome rc = Throw e ∧ webapis (trace rc) = []
  end.
Proof.
  cbn zeta. split.
  { rewrite isObo_spelling. by setoid_rewrite toLowerCase_obo. }
  split; [apply toLowerCase_obo|].
  split; [apply takes_obo_path_mode|]. split.
  { destruct (isObo env) eqn:E.
    - split; [by apply obo_start_record|].
      by destruct (obo_path_executes sdk proc env E) as [Hx _].
    - destruct (default_selector sdk proc env E) as [Hh _].
      destruct (default_path_executes sdk proc env E) as (Hc & Ha & _).
      do 3 (split; [done|]). intros e. by apply default_errors. }
  split; [apply token_keeps_mode|].
  destruct (outcome (getAzureDevOpsToken sdk proc env)) as [t|e] eqn:E.
  - destruct (client_builds sdk proc ua env t E) as (h & -> & Hb & _ & Hv).
    exists h. rewrite outcome_run, trace_run, webapis_app, token_builds_no_client.
    do 4 (split; [done|]). by rewrite last_app.
  - rewrite (client_propagates sdk proc ua env e E), outcome_run, trace_run.
    split; [done|]. apply token_builds_no_client.
Qed.
(** * Further properties of the program *)

(** ** Start of the process *)


(** X2: the URL of every client that is constructed is
    [https://dev.azure.com/] followed by the organization the process was
    started with. *)
Theorem client_url_from_startup sdk argv env0 proc ua env h
    (Hstart : startup argv env0 = Ret proc)
    (Hok : outcome (getAzureDevOpsClient sdk proc ua env) = Ret h) :
  ∃ o, firstNonEmpty (Some (organization argv)) (env0 !! "ADO_ORG") = Some o ∧
       serverUrl h = "https://dev.azure.com/" +:+ o.
Proof.
  assert (serverUrl h = orgUrl proc) as ->.
  { destruct (outcome (getAzureDevOpsToken sdk proc env)) as [t|e] eqn:E;
      [|by rewrite (client_propagates sdk proc ua env e E) in Hok].
    destruct (client_builds sdk proc ua env t E) as (h' & Hr & _ & Hu & _).
    rewrite Hr, outcome_run in Hok. by simplify_eq. }
  clear Hok. unfold startup in Hstart.
  destruct (truthy (Some (organization argv) ||j env0 !! "ADO_ORG")) eqn:Eo; [|done].
  cbn in Hstart. injection Hstart as <-.
  exists (str (Some (organization argv) ||j env0 !! "ADO_ORG")).
  split; [by rewrite <- js_or_firstNonEmpty, (nonEmpty_str _ Eo)|done].
Qed.

Lemma client_url_from_startup_witness :
  ∃ h, outcome (getAzureDevOpsClient sdk_issuing proc_tenant ua_sample env_obo) = Ret h ∧
       serverUrl h = "https://dev.azure.com/contoso".
Proof.
  eexists. split; [reflexivity|].
  destruct (client_url_from_startup sdk_issuing
              {| organization := "contoso"; tenant := Some "72f988bf" |} ∅
              proc_tenant ua_sample env_obo _ eq_refl eq_refl) as (o & Ho & Hu).
  cbv in Ho. injection Ho as <-. exact Hu.
Defined.

(** ** What a resolution does to the environment *)

(** X3: a client construction, and the token resolution inside it, write
    no variable of the environment other than [AZURE_TOKEN_CREDENTIALS];
    whatever is written is written by the token resolution. *)
Theorem client_writes_only_selector sdk proc ua env :
  env_after (getAzureDevOpsClient sdk proc ua env) =
    env_after (getAzureDevOpsToken sdk proc env) ∧
  assignments (trace (getAzureDevOpsClient sdk proc ua env)) =
    assignments (trace (getAzureDevOpsToken sdk proc env)) ∧
  ∀ name, name ≠ "AZURE_TOKEN_CREDENTIALS" →
    env_after (getAzureDevOpsClient sdk proc ua env) !! name = env !! name.
Proof.
  assert (env_after (getAzureDevOpsClient sdk proc ua env) =
          env_after (getAzureDevOpsToken sdk proc env) ∧
          assignments (trace (getAzureDevOpsClient sdk proc ua env)) =
          assignments (trace (getAzureDevOpsToken sdk proc env))) as [He Ha].
  { destruct (outcome (getAzureDevOpsToken sdk proc env)) as [t|e] eqn:E.
    - destruct (client_builds sdk proc ua env t E) as (h & -> & _).
      split; [done|]. rewrite trace_run.
      induction (trace (getAzureDevOpsToken sdk proc env)) as [|[] tr IH];
        cbn; by rewrite ?IH.
    - by rewrite (client_propagates sdk proc ua env e E). }
  do 2 (split; [done|]). intros name Hn. rewrite He. by apply token_keeps_env.
Qed.

(** X4: a second token resolution, run in the environment the first one
    left, has the same outcome and the same trace as the first and
    leaves the environment as it found it: the assignment of the chain
    selector does not feed back into the next call. *)
Theorem resolution_repeatable sdk proc env :
  let r1 := getAzureDevOpsToken sdk proc env in
  let r2 := getAzureDevOpsToken sdk proc (env_after r1) in
  outcome r2 = outcome r1 ∧ trace r2 = trace r1 ∧ env_after r2 = env_after r1.
Proof.
  cbn zeta. destruct (isObo env) eqn:E.
  - destruct (obo_env sdk proc env E) as [He _]. by rewrite !He.
  - assert (isObo (sdk_env env) = false) as E'
      by by rewrite <- (token_env_after sdk proc env), token_keeps_mode.
    assert (selector_value (sdk_env env) = selector_value env) as Hv.
    { unfold selector_value, sdk_env. rewrite E. by rewrite lookup_insert_ne. }
    assert (sdk_env (sdk_env env) = sdk_env env) as Hs.
    { unfold sdk_env at 1. rewrite E', Hv.
      unfold sdk_env. rewrite E. apply insert_insert_eq. }
    assert (getAzureDevOpsToken sdk proc (sdk_env env) = getAzureDevOpsToken sdk proc env)
      as Heq.
    { rewrite (default_run sdk proc _ E'), (default_run sdk proc env E). cbn zeta.
      by rewrite Hv, Hs. }
    by rewrite token_env_after, !Heq, token_env_after.
Qed.

(** X5: whichever path is taken, every token is asked for the one scope
    of Azure DevOps. *)
Theorem every_request_has_the_fixed_scope sdk proc ua env :
  Forall (λ sc, sc = "499b84ac-1321-427f-aa17-267ca6975798/.default")
    (scopes (trace (getAzureDevOpsClient sdk proc ua env))).
Proof.
  unfold_program. crunch; repeat constructor.
Qed.


(** ** Outcomes by the provider's reply *)

(** X6: in the delegated mode with its four settings present, the
    constructor of one on-behalf-of credential is called with them.  When
    it throws, its error is the result and nothing is asked.  Otherwise
    the credential is asked once: a token issued is the result; no token
    is the on-behalf-of error, and the line "Token acquired" has been
    written all the same, without an expiry; a failure of the SDK is the
    result as it is, and the line has not been written. *)
Theorem obo_run_by_reply sdk proc env
    (Hobo : isObo env = true)
    (Hall : truthy (userAssertionOf env) && truthy (envTenantOf proc env) &&
            truthy (clientIdOf env) && truthy (clientSecretOf env) = true) :
  let obo := OnBehalfOfCredential (str (envTenantOf proc env)) (str (clientIdOf env))
               (str (clientSecretOf env)) (str (userAssertionOf env)) in
  let r := getAzureDevOpsToken sdk proc env in
  constructed (trace r) = [obo] ∧
  match construct sdk env obo with
  | Some what =>
      outcome r = Throw (ErrSdk what) ∧
      contacts (trace r) = [] ∧
      lines (trace r) = ["[ADO][OBO] Starting OBO token acquisition"] ∧
      last (trace r) = Some (EvNew obo)
  | None =>
      contacts (trace r) = [obo] ∧
      match identityProvider sdk env obo scope with
      | Issued t =>
          outcome r = Ret t ∧
          lines (trace r) =
            ["[ADO][OBO] Starting OBO token acquisition"; "[ADO][OBO] Token acquired"] ∧
          last (trace r) =
            Some (EvLog "[ADO][OBO] Token acquired"
                    [("expiresOn", JNumber (expiresOnTimestamp t))])
      | Nothing =>
          outcome r = Throw ErrOboNoToken ∧
          lines (trace r) =
            ["[ADO][OBO] Starting OBO token acquisition"; "[ADO][OBO] Token acquired"] ∧
          last (trace r) =
            Some (EvLog "[ADO][OBO] Token acquired" [("expiresOn", JUndefined)])
      | Rejected what =>
          outcome r = Throw (ErrSdk what) ∧
          lines (trace r) = ["[ADO][OBO] Starting OBO token acquisition"] ∧
          last (trace r) = Some (EvGetToken obo scope)
      end
  end.
Proof.
  cbn zeta. rewrite (obo_run sdk proc env Hobo). cbn zeta.
  apply andb_true_iff in Hall as [[[H1 H2]%andb_true_iff H3]%andb_true_iff H4].
  rewrite H1, H2, H3, H4. cbn [negb orb].
  destruct (construct sdk env _); [done|].
  by destruct (identityProvider sdk env _ scope).
Qed.

Lemma obo_run_by_reply_witness :
  isObo env_obo_bad_tenant = true ∧
  outcome (getAzureDevOpsToken sdk_strict proc_contoso env_obo_bad_tenant) =
    Throw (ErrSdk "Invalid tenant id provided") ∧
  contacts (trace (getAzureDevOpsToken sdk_strict proc_contoso env_obo_bad_tenant)) = [].
Proof.
  split; [reflexivity|].
  destruct (obo_run_by_reply sdk_strict proc_contoso env_obo_bad_tenant eq_refl eq_refl)
    as (_ & Ho & Hc & _).
  split; [exact Ho | exact Hc].
Defined.

(** X7: in the default mode without a tenant id, the chain selector is
    assigned and the constructor of the ambient default credential is
    called.  When it throws, its error is the result and nothing is
    asked.  Otherwise the credential is asked once: a token issued is the
    result; no token is the error that points to the CLI login; a failure
    of the SDK is the result as it is. *)
Theorem default_run_by_reply sdk proc env
    (Hdefault : isObo env = false)
    (Htenant : truthy (tenantId proc) = false) :
  let r := getAzureDevOpsToken sdk proc env in
  let set := EvSetEnv "AZURE_TOKEN_CREDENTIALS" (selector_value env) in
  match construct sdk (sdk_env env) DefaultAzureCredential with
  | Some what =>
      trace r = [set; EvNew DefaultAzureCredential] ∧
      outcome r = Throw (ErrSdk what)
  | None =>
      trace r = [set; EvNew DefaultAzureCredential;
                 EvGetToken DefaultAzureCredential scope] ∧
      outcome r = match identityProvider sdk (sdk_env env) DefaultAzureCredential scope with
                  | Issued t => Ret t
                  | Nothing => Throw ErrNoToken
                  | Rejected what => Throw (ErrSdk what)
                  end
  end.
Proof.
  cbn zeta. rewrite (default_run sdk proc env Hdefault). cbn zeta. rewrite Htenant.
  destruct (construct sdk _ _); [done|].
  by destruct (identityProvider sdk _ _ scope).
Qed.

Lemma default_run_by_reply_witness :
  isObo env_bogus = false ∧
  trace (getAzureDevOpsToken sdk_strict proc_contoso env_bogus) =
    [EvSetEnv "AZURE_TOKEN_CREDENTIALS" "bogus"; EvNew DefaultAzureCredential] ∧
  outcome (getAzureDevOpsToken sdk_strict proc_contoso env_bogus) =
    Throw (ErrSdk "Invalid value for AZURE_TOKEN_CREDENTIALS").
Proof.
  split; [reflexivity|].
  exact (default_run_by_reply sdk_strict proc_contoso env_bogus eq_refl eq_refl).
Defined.

(** ** Empty values *)

Lemma nonEmpty_decides a b :
  nonEmpty a = nonEmpty b →
  truthy a = truthy b ∧ (truthy a = true → str a = str b).
Proof.
  intros H. destruct (truthy a) eqn:Ea, (truthy b) eqn:Eb.
  - rewrite (nonEmpty_str a Ea), (nonEmpty_str b Eb) in H. by simplify_eq.
  - by rewrite (nonEmpty_str a Ea), (nonEmpty_falsy b Eb) in H.
  - by rewrite (nonEmpty_falsy a Ea), (nonEmpty_str b Eb) in H.
  - done.
Qed.

Lemma nonEmpty_js_or a a' b b' :
  nonEmpty a = nonEmpty a' → nonEmpty b = nonEmpty b' →
  nonEmpty (a ||j b) = nonEmpty (a' ||j b').
Proof.
  intros Ha Hb. rewrite !js_or_firstNonEmpty. unfold firstNonEmpty. by rewrite Ha, Hb.
Qed.

Lemma js_or_empty_nonEmpty a : js_or_empty a = default "" (nonEmpty a).
Proof.
  destruct a as [s|]; [|done]. rewrite js_or_empty_Some. cbn.
  by destruct (String.eqb_spec s "") as [-> |].
Qed.

Lemma same_up_to_empty_insert env env' name value :
  same_up_to_empty env env' →
  same_up_to_empty (<[name := value]> env) (<[name := value]> env').
Proof.
  intros H n. destruct (decide (name = n)) as [-> |Hn].
  - by rewrite !lookup_insert_eq.
  - by rewrite !lookup_insert_ne.
Qed.

(** The assignments of a resolution are decided by the mode and by the
    override, whatever the SDK does. *)
Lemma token_assignments sdk proc env :
  assignments (trace (getAzureDevOpsToken sdk proc env)) =
    if isObo env then [] else [("AZURE_TOKEN_CREDENTIALS", selector_value env)].
Proof.
  destruct (isObo env) eqn:E;
    [rewrite (obo_run sdk proc env E) | rewrite (default_run sdk proc env E)];
    cbn zeta; repeat case_match; done.
Qed.

(** X9: a variable set to the empty string counts as a variable that is
    not set.  Two environments that agree up to this take the same path
    and get the same assignment of the chain selector, whatever the SDK
    does; with an SDK that does not tell them apart either, they lead to
    the same outcome and to the same credentials constructed and asked. *)
Theorem empty_variable_as_unset sdk proc env env'
    (Hsame : same_up_to_empty env env') :
  isObo env = isObo env' ∧
  assignments (trace (getAzureDevOpsToken sdk proc env)) =
    assignments (trace (getAzureDevOpsToken sdk proc env')) ∧
  (blind_to_empty sdk →
   outcome (getAzureDevOpsToken sdk proc env) = outcome (getAzureDevOpsToken sdk proc env') ∧
   constructed (trace (getAzureDevOpsToken sdk proc env)) =
     constructed (trace (getAzureDevOpsToken sdk proc env')) ∧
   contacts (trace (getAzureDevOpsToken sdk proc env)) =
     contacts (trace (getAzureDevOpsToken sdk proc env'))).
Proof.
  assert (isObo env = isObo env') as Hm.
  { unfold isObo. by rewrite !js_or_empty_nonEmpty, (Hsame "ADO_AUTH"). }
  assert (isObo env' = false → selector_value env = selector_value env') as Hsel.
  { intros _.
    pose proof (nonEmpty_decides _ _ (Hsame "ADO_MCP_AZURE_TOKEN_CREDENTIALS")) as [Ho Hso].
    unfold selector_value. rewrite <- Ho.
    destruct (truthy (env !! _)); [by apply Hso | done]. }
  split; [done|]. split.
  { rewrite !token_assignments, Hm. destruct (isObo env'); [done|]. by rewrite Hsel. }
  intros Hsdk. destruct (isObo env') eqn:E'.
  - pose proof (nonEmpty_decides _ _
      (nonEmpty_js_or _ _ _ _ (Hsame "MCP_USER_ASSERTION") (Hsame "ADO_USER_ASSERTION")))
      as [Ha Hsa].
    pose proof (nonEmpty_decides _ _
      (nonEmpty_js_or _ _ _ (tenantId proc)
         (nonEmpty_js_or _ _ _ _ (Hsame "AZURE_AD_TENANT_ID") (Hsame "AZURE_TENANT_ID"))
         eq_refl)) as [Ht Hst].
    pose proof (nonEmpty_decides _ _
      (nonEmpty_js_or _ _ _ _ (Hsame "AZURE_AD_CLIENT_ID") (Hsame "AZURE_CLIENT_ID")))
      as [Hc Hsc].
    pose proof (nonEmpty_decides _ _
      (nonEmpty_js_or _ _ _ _ (Hsame "AZURE_AD_CLIENT_SECRET") (Hsame "AZURE_CLIENT_SECRET")))
      as [Hs Hss].
    rewrite (obo_run sdk proc env Hm), (obo_run sdk proc env' E'). cbn zeta.
    fold (userAssertionOf env) (userAssertionOf env') (envTenantOf proc env)
      (envTenantOf proc env') (clientIdOf env) (clientIdOf env') (clientSecretOf env)
      (clientSecretOf env') in *.
    rewrite <- Ha, <- Ht, <- Hc, <- Hs.
    destruct (truthy (userAssertionOf env)); [|done].
    destruct (truthy (envTenantOf proc env)); [|done].
    destruct (truthy (clientIdOf env)); [|done].
    destruct (truthy (clientSecretOf env)); [|done].
    rewrite <- Hsa, <- Hst, <- Hsc, <- Hss by done. cbn [negb orb].
    destruct (Hsdk env env'
      (OnBehalfOfCredential (str (envTenantOf proc env)) (str (clientIdOf env))
         (str (clientSecretOf env)) (str (userAssertionOf env))) Hsame) as [<- Hi].
    rewrite <- Hi.
    destruct (construct sdk env _); [done|].
    by destruct (identityProvider sdk env _ scope).
  - specialize (Hsel eq_refl).
    assert (same_up_to_empty (sdk_env env) (sdk_env env')) as Hse.
    { unfold sdk_env. rewrite Hm, E', Hsel. by apply same_up_to_empty_insert. }
    rewrite (default_run sdk proc env Hm), (default_run sdk proc env' E'). cbn zeta.
    rewrite <- Hsel.
    destruct (Hsdk _ _ DefaultAzureCredential Hse) as [<- Hd].
    destruct (Hsdk _ _ (AzureCliCredential (str (tenantId proc))) Hse) as [<- Hc].
    destruct (Hsdk _ _ (ChainedTokenCredential
      [AzureCliCredential (str (tenantId proc)); DefaultAzureCredential]) Hse) as [<- _].
    rewrite <- Hd, <- Hc.
    repeat case_match; done.
Qed.

Lemma empty_variable_as_unset_witness :
  same_up_to_empty env_blank ∅ ∧
  outcome (getAzureDevOpsToken sdk_issuing proc_contoso env_blank) =
    outcome (getAzureDevOpsToken sdk_issuing proc_contoso ∅) ∧
  assignments (trace (getAzureDevOpsToken sdk_issuing proc_contoso env_blank)) =
    assignments (trace (getAzureDevOpsToken sdk_issuing proc_contoso ∅)).
Proof.
  assert (same_up_to_empty env_blank ∅) as Hsame.
  { intros name. unfold env_blank. rewrite lookup_empty.
    destruct (decide (name = "ADO_AUTH")) as [-> |?]; [done|].
    rewrite lookup_insert_ne by done.
    destruct (decide (name = "ADO_MCP_AZURE_TOKEN_CREDENTIALS")) as [-> |?]; [done|].
    by rewrite lookup_singleton_ne by done. }
  split; [exact Hsame|].
  destruct (empty_variable_as_unset sdk_issuing proc_contoso env_blank ∅ Hsame)
    as (_ & Ha & Hb).
  destruct Hb as (Ho & _); [done|].
  split; [exact Ho | exact Ha].
Defined.

(** ** The client that is built *)

Lemma token_surface_irrelevant b sdk proc env :
  getAzureDevOpsToken (with_surface b sdk) proc env = getAzureDevOpsToken sdk proc env.
Proof. reflexivity. Qed.

(** The client of a successful construction, field by field. *)
Lemma client_shape sdk proc ua env h :
  outcome (getAzureDevOpsClient sdk proc ua env) = Ret h →
  ∃ t, outcome (getAzureDevOpsToken sdk proc env) = Ret t ∧
       h = if isObo env && hasCreateWithBearerToken sdk then
             {| via := CreateWithBearerToken;
                serverUrl := orgUrl proc;
                bearer := token t;
                requestSettings := None |}
           else
             {| via := BearerHandler;
                serverUrl := orgUrl proc;
                bearer := token t;
                requestSettings :=
                  Some {| productName := "AzureDevOps.MCP";
                          productVersion := packageVersion sdk;
                          userAgent := composedUserAgent ua |} |}.
Proof.
  intros Hok. pose proof (token_keeps_env sdk proc "ADO_AUTH" env) as Hk.
  revert Hok Hk.
  unfold getAzureDevOpsClient, mbind, M_bind, bind, process_env, emit, mret, M_ret, ret,
    outcome, env_after, isObo.
  destruct (getAzureDevOpsToken sdk proc env) as [[[t|e] e'] tr]; cbn; [|done].
  intros [= <-] Hk. rewrite Hk by done. exists t. split; [done|].
  by destruct (_ && _).
Qed.

(** X10: a client built by [new azdev.WebApi] around the bearer handler
    has received the product name [AzureDevOps.MCP], the package version
    and the user agent of the composer as its request settings; a client
    built by [createWithBearerToken], which happens in the delegated mode
    only, has received none.  Whether the SDK offers
    [createWithBearerToken] changes nothing else: the token, the URL, the
    requests made and the environment left are the same. *)
Theorem client_metadata_on_both_routes sdk proc ua env h
    (Hok : outcome (getAzureDevOpsClient sdk proc ua env) = Ret h) :
  serverUrl h = orgUrl proc ∧
  match via h with
  | BearerHandler =>
      requestSettings h =
        Some {| productName := "AzureDevOps.MCP";
                productVersion := packageVersion sdk;
                userAgent := composedUserAgent ua |}
  | CreateWithBearerToken =>
      requestSettings h = None ∧ isObo env = true ∧ hasCreateWithBearerToken sdk = true
  end ∧
  ∀ b, ∃ h',
    outcome (getAzureDevOpsClient (with_surface b sdk) proc ua env) = Ret h' ∧
    via h' = (if isObo env && b then CreateWithBearerToken else BearerHandler) ∧
    (bearer h', serverUrl h') = (bearer h, serverUrl h) ∧
    contacts (trace (getAzureDevOpsClient (with_surface b sdk) proc ua env)) =
      contacts (trace (getAzureDevOpsClient sdk proc ua env)) ∧
    env_after (getAzureDevOpsClient (with_surface b sdk) proc ua env) =
      env_after (getAzureDevOpsClient sdk proc ua env).
Proof.
  destruct (client_shape sdk proc ua env h Hok) as (t & Ht & ->).
  split; [by destruct (_ && _)|]. split.
  { destruct (isObo env), (hasCreateWithBearerToken sdk); done. }
  intros b.
  pose proof Ht as Ht'. rewrite <- (token_surface_irrelevant b) in Ht'.
  destruct (client_builds (with_surface b sdk) proc ua env t Ht') as (h' & Hr & _).
  destruct (client_builds sdk proc ua env t Ht) as (h'' & Hr'' & _).
  assert (outcome (getAzureDevOpsClient (with_surface b sdk) proc ua env) = Ret h') as Hok'
    by by rewrite Hr.
  destruct (client_shape _ proc ua env h' Hok') as (t' & Ht'' & Hh').
  rewrite Ht' in Ht''. simplify_eq.
  eexists. rewrite Hr, Hr'', !outcome_run, !trace_run, !contacts_app.
  split; [done|]. cbn [hasCreateWithBearerToken with_surface].
  by destruct (isObo env), b, (hasCreateWithBearerToken sdk).
Qed.

Lemma client_metadata_on_both_routes_witness :
  ∃ h h',
    outcome (getAzureDevOpsClient sdk_issuing proc_contoso ua_sample env_obo) = Ret h ∧
    requestSettings h = None ∧
    outcome (getAzureDevOpsClient (with_surface false sdk_issuing) proc_contoso ua_sample
               env_obo) = Ret h' ∧
    via h' = BearerHandler ∧
    bearer h' = bearer h.
Proof.
  eexists.
  destruct (client_metadata_on_both_routes sdk_issuing proc_contoso ua_sample env_obo _
              eq_refl) as (_ & (Hs & _) & Hb).
  destruct (Hb false) as (h' & Ho & Hv & Hm & _).
  exists h'. split; [reflexivity|]. split; [exact Hs|].
  split; [exact Ho|]. split; [exact Hv|]. by injection Hm.
Defined.

(** The lines of a run made of events of one path only. *)
Lemma path_lines tr :
  forallb obo_event tr = true ∨ forallb ambient_event tr = true →
  Forall (λ line, String.prefix "[ADO][OBO]" line = true) (lines tr) ∧
  (forallb ambient_event tr = true → lines tr = []).
Proof.
  induction tr as [|ev tr IH]; [done|]. cbn [forallb].
  rewrite !andb_true_iff.
  intros [[Hev Htr]|[Hev Htr]];
    [destruct (IH (or_introl Htr)) as (Hl & Ha)
    |destruct (IH (or_intror Htr)) as (Hl & Ha)];
    destruct ev; cbn in *; try discriminate;
    (split; [try constructor; done|]);
    intros [? ?]; try discriminate; auto.
Qed.

(** X11: a successful client construction ends with the construction of
    the client followed by the one line "WebApi client initialized", which
    names the URL and the mode as read, in lower case; a failed one
    constructs no client and writes no such line, the lines of a token
    resolution being those of the delegated path only. *)
Theorem client_line_iff_success sdk proc ua env :
  let r := getAzureDevOpsClient sdk proc ua env in
  let rt := getAzureDevOpsToken sdk proc env in
  match outcome r with
  | Ret h =>
      trace r = trace rt ++
        [EvWebApi h;
         EvLog "[ADO] WebApi client initialized"
           [("orgUrl", JString (orgUrl proc));
            ("authMode", js_lower (js_or_empty (env !! "ADO_AUTH")))]]
  | Throw _ => trace r = trace rt
  end ∧
  webapis (trace rt) = [] ∧
  Forall (λ line, String.prefix "[ADO][OBO]" line = true) (lines (trace rt)) ∧
  (isObo env = false → lines (trace rt) = []).
Proof.
  cbn zeta. split.
  { destruct (outcome (getAzureDevOpsToken sdk proc env)) as [t|e] eqn:E.
    - by destruct (client_builds sdk proc ua env t E) as (h & -> & _).
    - by rewrite (client_propagates sdk proc ua env e E). }
  split; [apply token_builds_no_client|].
  destruct (isObo env) eqn:E.
  - destruct (path_lines _ (or_introl (obo_trace sdk proc env E))) as [? ?]. done.
  - destruct (path_lines _ (or_intror (default_trace sdk proc env E))) as [? Ha].
    split; [done|]. intros _. apply Ha. by apply default_trace.
Qed.

(** ** Errors and their causes *)

(** X13: every error of a token resolution has its cause.  A
    configuration error comes from the delegated mode with a setting
    missing, before anything was constructed or asked; an authentication
    error comes after the provider has been asked and has returned no
    token to any request; any other error comes after the SDK has refused
    a request of this run, or is the error that the last constructor
    called has thrown, before any request. *)
Theorem error_has_its_cause sdk proc env e
    (Herr : outcome (getAzureDevOpsToken sdk proc env) = Throw e) :
  let tr := trace (getAzureDevOpsToken sdk proc env) in
  match kind e with
  | ConfigurationError =>
      isObo env = true ∧ constructed tr = [] ∧ contacts tr = [] ∧
      truthy (userAssertionOf env) && truthy (envTenantOf proc env) &&
        truthy (clientIdOf env) && truthy (clientSecretOf env) = false
  | AuthenticationError =>
      contacts tr ≠ [] ∧
      Forall (λ c, identityProvider sdk (sdk_env env) c scope = Nothing) (contacts tr)
  | TransportError =>
      (∃ c what, c ∈ contacts tr ∧
                 identityProvider sdk (sdk_env env) c scope = Rejected what) ∨
      (∃ c what, last (constructed tr) = Some c ∧
                 construct sdk (sdk_env env) c = Some what ∧
                 e = ErrSdk what ∧
                 contacts tr = [])
  end.
Proof.
  cbn zeta. revert Herr. destruct (isObo env) eqn:E.
  - rewrite (obo_run sdk proc env E). unfold sdk_env. rewrite E. cbn zeta.
    destruct (truthy (userAssertionOf env)); cbn [negb andb]; [|by intros [= <-]].
    destruct (truthy (envTenantOf proc env)); cbn [negb andb orb]; [|by intros [= <-]].
    destruct (truthy (clientIdOf env)); cbn [negb andb orb]; [|by intros [= <-]].
    destruct (truthy (clientSecretOf env)); cbn [negb andb orb]; [|by intros [= <-]].
    destruct (construct sdk env _) eqn:Hn.
    { intros [= <-]. cbn. right. eauto 10. }
    destruct (identityProvider sdk env _ scope) eqn:Hr; intros [= <-]; cbn.
    + split; [done|]. by repeat constructor.
    + left. eexists _, _. split; [apply list_elem_of_here|]. done.
  - rewrite (default_run sdk proc env E). cbn zeta.
    destruct (construct sdk _ DefaultAzureCredential) eqn:H1.
    { intros [= <-]. cbn. right. eauto 10. }
    destruct (truthy (tenantId proc)).
    + destruct (construct sdk _ (AzureCliCredential _)) eqn:H2.
      { intros [= <-]. cbn. right. eauto 10. }
      destruct (construct sdk _ (ChainedTokenCredential _)) eqn:H3.
      { intros [= <-]. cbn. right. eauto 10. }
      destruct (identityProvider sdk _ (AzureCliCredential _) scope) eqn:Hc;
        try destruct (identityProvider sdk _ DefaultAzureCredential scope) eqn:Hd;
        intros [= <-]; cbn;
        first
          [ by (split; [done|]; repeat constructor)
          | by (left; eexists _, _; split; [apply list_elem_of_here|]; done)
          | by (left; eexists _, _;
                split; [apply list_elem_of_further, list_elem_of_here|]; done) ].
    + destruct (identityProvider sdk _ DefaultAzureCredential scope) eqn:Hd;
        intros [= <-]; cbn.
      * split; [done|]. by repeat constructor.
      * left. eexists _, _. split; [apply list_elem_of_here|]. done.
Qed.

Lemma error_has_its_cause_witness :
  outcome (getAzureDevOpsToken sdk_strict proc_contoso env_bogus) =
    Throw (ErrSdk "Invalid value for AZURE_TOKEN_CREDENTIALS") ∧
  contacts (trace (getAzureDevOpsToken sdk_strict proc_contoso env_bogus)) = [].
Proof.
  split; [reflexivity|].
  destruct (error_has_its_cause sdk_strict proc_contoso env_bogus _ eq_refl)
    as [(c & what & Hc & _)|(c & what & _ & _ & _ & Hn)].
  - vm_compute in Hc. by apply elem_of_nil in Hc.
  - exact Hn.
Defined.

(** X14: no request is made after a token has been issued: the request
    that the provider answers with a token is the last of the run, and
    that token is the result. *)
Theorem no_request_after_a_token sdk proc env i c t
    (Hasked : contacts (trace (getAzureDevOpsToken sdk proc env)) !! i = Some c)
    (Hissued : identityProvider sdk (sdk_env env) c scope = Issued t) :
  outcome (getAzureDevOpsToken sdk proc env) = Ret t ∧
  List.length (contacts (trace (getAzureDevOpsToken sdk proc env))) = S i.
Proof.
  revert Hasked Hissued. destruct (isObo env) eqn:E;
    [rewrite (obo_run sdk proc env E) | rewrite (default_run sdk proc env E)];
    unfold sdk_env; rewrite E; cbn zeta; repeat case_match; cbn;
    intros Ha Hi;
    repeat (destruct i as [|i]; cbn in Ha; simplify_eq); try done;
    first [congruence | split; [congruence | done]].
Qed.

Lemma no_request_after_a_token_witness :
  contacts (trace (getAzureDevOpsToken sdk_no_cli proc_tenant env_prod)) !! 1 =
    Some DefaultAzureCredential ∧
  outcome (getAzureDevOpsToken sdk_no_cli proc_tenant env_prod) = Ret sample_token ∧
  List.length (contacts (trace (getAzureDevOpsToken sdk_no_cli proc_tenant env_prod))) = 2.
Proof.
  split; [reflexivity|].
  apply (no_request_after_a_token sdk_no_cli proc_tenant env_prod 1
           DefaultAzureCredential sample_token); reflexivity.
Defined.
